(** * answer-checker: the evaluation handlers and the content assembler

    A shallow embedding of

    - [netlify/functions/evaluate.js] (module [Evaluate]): the lexical
      declarations of the module, which the engine rejects when it parses
      it, the helper [clampNumber] and the expressions of the compiled
      text and of the total;
    - the second server handler, [evaluate.mjs] (module [Part000]):
      [handler] and [clamp];
    - [public/app.js] (module [App]): [extractFromPDF], the PDF branch of
      the [evaluateBtn] click handler and [extractFromPPTX]; (module
      [Client]): [handleFiles], [isAllowed], the checks and the loop over
      the files of the click handler, [extractFromDOCX], [bullet] and
      [escapeHtml].

    The JavaScript values the handlers touch are the ones [JSON.parse]
    produces, plus [undefined].  Strings are sequences of UTF-16 code
    units.  Numbers are [NaN], the two infinities and the finite values,
    which are rationals; the quotient, the product and the difference the
    handlers and the assembler compute are rounded to binary64, to the
    nearest with ties to even ([JS.binary64]).  The sign of zero is not
    represented. *)

From Stdlib Require Import ZArith QArith Qround Qpower List String Ascii Bool.
From Stdlib Require Import Lia Lqa.
From Stdlib Require Import Sorting.Sorted Sorting.Permutation.
From Stdlib Require Import DecimalPos DecimalN.
Import ListNotations.

Close Scope Q_scope.
Open Scope Z_scope.
Set Warnings "-register-all".

(* ================================================================== *)
(** * The JavaScript fragment used by the sources *)
(* ================================================================== *)

Module JS.

(** ** Strings: lists of UTF-16 code units *)

Definition char := N.
Definition jsstring := list char.

Definition js (s : string) : jsstring :=
  List.map N_of_ascii (list_ascii_of_string s).

Fixpoint str_eqb (a b : jsstring) : bool :=
  match a, b with
  | [], [] => true
  | x :: a', y :: b' => N.eqb x y && str_eqb a' b'
  | _, _ => false
  end.

(** [s.length] *)
Definition str_length (s : jsstring) : Z := Z.of_nat (List.length s).

(** [s.startsWith(p)] *)
Fixpoint startsWith (s p : jsstring) : bool :=
  match p, s with
  | [], _ => true
  | x :: p', y :: s' => N.eqb x y && startsWith s' p'
  | _ :: _, [] => false
  end.

(** [s.endsWith(p)] *)
Definition endsWith (s p : jsstring) : bool :=
  startsWith (rev s) (rev p).

(** [s.slice(0, n)] for [0 <= n] *)
Definition slice0 (n : nat) (s : jsstring) : jsstring := firstn n s.

(** [parts.join(sep)] on an array of strings *)
Fixpoint join (sep : jsstring) (parts : list jsstring) : jsstring :=
  match parts with
  | [] => []
  | [p] => p
  | p :: rest => p ++ sep ++ join sep rest
  end.

(** White space and line terminators, the code units [trim] strips. *)
Definition isWhiteSpace (c : char) : bool :=
  ((9 <=? c) && (c <=? 13))%N
  || N.eqb c 32 || N.eqb c 160 || N.eqb c 5760
  || ((8192 <=? c) && (c <=? 8202))%N
  || N.eqb c 8232 || N.eqb c 8233 || N.eqb c 8239
  || N.eqb c 8287 || N.eqb c 12288 || N.eqb c 65279.

Fixpoint trimStart (s : jsstring) : jsstring :=
  match s with
  | c :: s' => if isWhiteSpace c then trimStart s' else s
  | [] => []
  end.

(** [s.trim()] *)
Definition trim (s : jsstring) : jsstring :=
  rev (trimStart (rev (trimStart s))).

(** Decimal digits of a natural number, as [String(i)] prints an index. *)
Fixpoint uint_chars (d : Decimal.uint) : jsstring :=
  match d with
  | Decimal.Nil => []
  | Decimal.D0 d => 48%N :: uint_chars d
  | Decimal.D1 d => 49%N :: uint_chars d
  | Decimal.D2 d => 50%N :: uint_chars d
  | Decimal.D3 d => 51%N :: uint_chars d
  | Decimal.D4 d => 52%N :: uint_chars d
  | Decimal.D5 d => 53%N :: uint_chars d
  | Decimal.D6 d => 54%N :: uint_chars d
  | Decimal.D7 d => 55%N :: uint_chars d
  | Decimal.D8 d => 56%N :: uint_chars d
  | Decimal.D9 d => 57%N :: uint_chars d
  end.

Definition decimal (n : N) : jsstring := uint_chars (N.to_uint n).

Definition isDigit (c : char) : bool := ((48 <=? c) && (c <=? 57))%N.

(** The longest run of digits at the head of [s], as [\d+] takes it. *)
Fixpoint takeDigits (s : jsstring) : jsstring :=
  match s with
  | c :: rest => if isDigit c then c :: takeDigits rest else []
  | [] => []
  end.

(** The value of a string of decimal digits, exactly. *)
Definition digitsToZ (ds : jsstring) : Z :=
  fold_left (fun acc c => 10 * acc + (Z.of_N c - 48)) ds 0.

(** ** Numbers *)

Inductive number :=
| NaN
| PosInf
| NegInf
| Fin (q : Q).

Definition num (z : Z) : number := Fin (inject_Z z).

(** Numeric equality of two numbers that are not [NaN]. *)
Definition num_eq (a b : number) : Prop :=
  match a, b with
  | NaN, NaN => True
  | PosInf, PosInf => True
  | NegInf, NegInf => True
  | Fin p, Fin q => Qeq p q
  | _, _ => False
  end.

(** [Number.isNaN(n)] *)
Definition isNaN (n : number) : bool :=
  match n with NaN => true | _ => false end.

Definition Qlt_bool (p q : Q) : bool := negb (Qle_bool q p).

(** [a < b] *)
Definition num_ltb (a b : number) : bool :=
  match a, b with
  | NaN, _ | _, NaN => false
  | _, NegInf => false
  | NegInf, _ => true
  | PosInf, _ => false
  | _, PosInf => true
  | Fin p, Fin q => Qlt_bool p q
  end.

(** [a <= b] *)
Definition num_leb (a b : number) : bool :=
  match a, b with
  | NaN, _ | _, NaN => false
  | NegInf, _ => true
  | _, PosInf => true
  | _, NegInf => false
  | PosInf, _ => false
  | Fin p, Fin q => Qle_bool p q
  end.

(** [Math.min(a, b)] *)
Definition Math_min (a b : number) : number :=
  match a, b with
  | NaN, _ | _, NaN => NaN
  | _, _ => if num_ltb b a then b else a
  end.

(** [Math.max(a, b)] *)
Definition Math_max (a b : number) : number :=
  match a, b with
  | NaN, _ | _, NaN => NaN
  | _, _ => if num_ltb a b then b else a
  end.

Definition Qis_zero (q : Q) : bool := Z.eqb (Qnum q) 0.
Definition Qis_neg (q : Q) : bool := Z.ltb (Qnum q) 0.

Definition signed_inf (negative : bool) : number :=
  if negative then NegInf else PosInf.

(** The product of [a] and [b], before it is rounded. *)
Definition num_mul (a b : number) : number :=
  match a, b with
  | NaN, _ | _, NaN => NaN
  | Fin p, Fin q => Fin (Qmult p q)
  | Fin p, PosInf | PosInf, Fin p =>
      if Qis_zero p then NaN else signed_inf (Qis_neg p)
  | Fin p, NegInf | NegInf, Fin p =>
      if Qis_zero p then NaN else signed_inf (negb (Qis_neg p))
  | PosInf, PosInf | NegInf, NegInf => PosInf
  | PosInf, NegInf | NegInf, PosInf => NegInf
  end.

(** The quotient of [a] by [b], before it is rounded.  A zero divisor is
    taken as [+0]. *)
Definition num_div (a b : number) : number :=
  match a, b with
  | NaN, _ | _, NaN => NaN
  | Fin p, Fin q =>
      if Qis_zero q
      then (if Qis_zero p then NaN else signed_inf (Qis_neg p))
      else Fin (Qdiv p q)
  | Fin _, (PosInf | NegInf) => Fin (inject_Z 0)
  | PosInf, Fin q => signed_inf (Qis_neg q)
  | NegInf, Fin q => signed_inf (negb (Qis_neg q))
  | (PosInf | NegInf), (PosInf | NegInf) => NaN
  end.

(** The difference of [a] and [b], before it is rounded. *)
Definition num_sub (a b : number) : number :=
  match a, b with
  | NaN, _ | _, NaN => NaN
  | Fin p, Fin q => Fin (Qminus p q)
  | PosInf, PosInf | NegInf, NegInf => NaN
  | PosInf, _ | _, NegInf => PosInf
  | NegInf, _ | _, PosInf => NegInf
  end.

(** [Math.round(a)]: the nearest integer, halves towards [+Infinity]. *)
Definition Math_round (a : number) : number :=
  match a with
  | Fin q => num (Qfloor (Qplus q (1 # 2)))
  | other => other
  end.

(** ** binary64

    The Number type is IEEE 754 binary64: 53 significant bits, exponents
    down to [2^-1074] for the last place, and [Infinity] from [2^1024] on.
    An arithmetic operation gives the exact result rounded to the nearest
    such number, a tie going to the one with an even last bit. *)

(** [2^k] *)
Definition pow2 (k : Z) : Q := Qpower 2 k.

(** The exponent of a positive rational: the [k] with
    [2^k <= x < 2^(k+1)].  The difference of the bit lengths of numerator
    and denominator is [k] or [k + 1]. *)
Definition ilog2 (x : Q) : Z :=
  let k := Z.log2 (Qnum x) - Z.log2 (Z.pos (Qden x)) in
  if Qle_bool (pow2 k) x then k else k - 1.

(** The nearest integer, a tie going to the even one. *)
Definition nearestEven (x : Q) : Z :=
  let f := Qfloor x in
  match Qcompare (Qminus x (inject_Z f)) (1 # 2) with
  | Lt => f
  | Gt => f + 1
  | Eq => if Z.even f then f else f + 1
  end.

(** The exponent of the last place of the binary64 numbers next to a
    positive [x]. *)
Definition lastPlace (x : Q) : Z := Z.max (ilog2 x - 52) (-1074).

(** A positive [x] rounded to a multiple of its last place. *)
Definition nearest (x : Q) : Q :=
  let e := lastPlace x in
  Qmult (inject_Z (nearestEven (Qmult x (pow2 (- e))))) (pow2 e).

(** The binary64 number an exact result [x] is rounded to. *)
Definition binary64 (x : Q) : number :=
  match Qcompare x 0 with
  | Eq => Fin 0
  | Gt => let y := nearest x in
          if Qle_bool (pow2 1024) y then PosInf else Fin (Qred y)
  | Lt => let y := nearest (Qopp x) in
          if Qle_bool (pow2 1024) y then NegInf else Fin (Qred (Qopp y))
  end.

Definition rounded (a : number) : number :=
  match a with
  | Fin q => binary64 q
  | other => other
  end.

(** [a / b], [a * b] and [a - b] *)
Definition fdiv (a b : number) : number := rounded (num_div a b).
Definition fmul (a b : number) : number := rounded (num_mul a b).
Definition fsub (a b : number) : number := rounded (num_sub a b).

(** [Number(ds)] for a string of decimal digits: the binary64 number
    nearest to its value (exactly so up to 20 significant digits; beyond,
    the standard lets an engine round a decimal next to it). *)
Definition digitsToNumber (ds : jsstring) : number :=
  binary64 (inject_Z (digitsToZ ds)).

(** ** Early errors

    A block that declares a name twice with [const], [let] or (in a
    module) [function] has no parse: the engine rejects the whole module
    with a SyntaxError before any of it runs.  [decls] lists the
    declarations that stand directly in one block, each name with its
    line, in the order they are written. *)
Fixpoint lineOf (name : jsstring) (decls : list (jsstring * Z)) : option Z :=
  match decls with
  | [] => None
  | (name', line) :: rest =>
      if str_eqb name name' then Some line else lineOf name rest
  end.

(** The first name a block declares twice, with the two lines. *)
Fixpoint redeclared (decls : list (jsstring * Z)) : option (jsstring * Z * Z) :=
  match decls with
  | [] => None
  | (name, line) :: rest =>
      match lineOf name rest with
      | Some line' => Some (name, line, line')
      | None => redeclared rest
      end
  end.

Fixpoint firstRedeclared (blocks : list (list (jsstring * Z)))
  : option (jsstring * Z * Z) :=
  match blocks with
  | [] => None
  | decls :: rest =>
      match redeclared decls with
      | Some found => Some found
      | None => firstRedeclared rest
      end
  end.

(** ** Values *)

Inductive value :=
| VUndefined
| VNull
| VBool (b : bool)
| VNum (n : number)
| VStr (s : jsstring)
| VArr (items : list value)
| VObj (fields : list (jsstring * value)).

(** Truthiness, as [!v], [v || d] and [if (v)] test it. *)
Definition ToBoolean (v : value) : bool :=
  match v with
  | VUndefined | VNull => false
  | VBool b => b
  | VNum NaN => false
  | VNum (Fin q) => negb (Qis_zero q)
  | VNum _ => true
  | VStr s => match s with [] => false | _ => true end
  | VArr _ | VObj _ => true
  end.

(** [a || b] *)
Definition or_else (a b : value) : value := if ToBoolean a then a else b.

Fixpoint lookup (k : jsstring) (fields : list (jsstring * value)) : value :=
  match fields with
  | [] => VUndefined
  | (k', v) :: rest => if str_eqb k k' then v else lookup k rest
  end.

(** The results of computations that may throw. *)
Inductive result (A : Type) :=
| Ok (a : A)
| Throw (e : value).
Arguments Ok {A} a.
Arguments Throw {A} e.

(** What the engine provides and this development does not define: the
    JSON codec, the conversions between numbers and strings, and the error
    object behind a [TypeError]. *)
Class Builtins := {
  JSON_parse : jsstring -> result value;
  JSON_stringify : value -> jsstring;
  Number_toString : number -> jsstring;
  String_toNumber : jsstring -> number;
  TypeError : jsstring -> value
}.

(** Sequencing pure computations that may throw. *)
Definition rbind {A C} (r : result A) (k : A -> result C) : result C :=
  match r with
  | Ok a => k a
  | Throw e => Throw e
  end.

(** The elements of [l] through [f], left to right, up to the first that
    throws. *)
Definition mapM {A C} (f : A -> result C) : list A -> result (list C) :=
  fix go (l : list A) : result (list C) :=
    match l with
    | [] => Ok []
    | x :: rest =>
        rbind (f x) (fun y => rbind (go rest) (fun ys => Ok (y :: ys)))
    end.

(** Whether an object has the own property [k]. *)
Fixpoint hasOwn (k : jsstring) (fields : list (jsstring * value)) : bool :=
  match fields with
  | [] => false
  | (k', _) :: rest => str_eqb k k' || hasOwn k rest
  end.

Section Conversions.
Context {B : Builtins}.

(** [String(v)], as template literals and [Array.prototype.join] use it.
    An object is converted by its [toString]: the inherited one answers
    ["[object Object]"]; an own property of that name, which in a parsed
    value is never a function, leaves no way to a primitive, and the
    conversion throws. *)
Fixpoint ToString (v : value) : result jsstring :=
  match v with
  | VUndefined => Ok (js "undefined")
  | VNull => Ok (js "null")
  | VBool true => Ok (js "true")
  | VBool false => Ok (js "false")
  | VNum n => Ok (Number_toString n)
  | VStr s => Ok s
  | VArr items =>
      rbind (mapM (fun x => match x with
                            | VUndefined | VNull => Ok []
                            | _ => ToString x
                            end) items)
            (fun parts => Ok (join (js ",") parts))
  | VObj fields =>
      if hasOwn (js "toString") fields
      then Throw (TypeError (js "toString"))
      else Ok (js "[object Object]")
  end.

(** [Number(v)].  Arrays and objects go through their string, which for
    an object is no numeral. *)
Definition ToNumber (v : value) : result number :=
  match v with
  | VUndefined => Ok NaN
  | VNull => Ok (num 0)
  | VBool true => Ok (num 1)
  | VBool false => Ok (num 0)
  | VNum n => Ok n
  | VStr s => Ok (String_toNumber s)
  | VArr _ => rbind (ToString v) (fun s => Ok (String_toNumber s))
  | VObj _ => rbind (ToString v) (fun _ => Ok NaN)
  end.

End Conversions.

Definition isNullish (v : value) : bool :=
  match v with VUndefined | VNull => true | _ => false end.

(** The value of [v.k] when [v] is neither [undefined] nor [null], for the
    data properties the sources read ([question], [texts], [length],
    [rawOutOf100], ...); none of them is an index or a method. *)
Definition prop (v : value) (k : jsstring) : value :=
  match v with
  | VObj fields => lookup k fields
  | VArr items =>
      if str_eqb k (js "length")
      then VNum (num (Z.of_nat (List.length items)))
      else VUndefined
  | VStr s =>
      if str_eqb k (js "length") then VNum (num (str_length s)) else VUndefined
  | _ => VUndefined
  end.

(** The value of [v[i]] when [v] is neither [undefined] nor [null]. *)
Definition index (v : value) (i : nat) : value :=
  match v with
  | VArr items => nth i items VUndefined
  | VStr s => match nth_error s i with Some c => VStr [c] | None => VUndefined end
  | VObj fields => lookup (decimal (N.of_nat i)) fields
  | _ => VUndefined
  end.

(** [v?.k] and [v?.[i]] *)
Definition optProp (v : value) (k : jsstring) : value :=
  if isNullish v then VUndefined else prop v k.

Definition optIndex (v : value) (i : nat) : value :=
  if isNullish v then VUndefined else index v i.

(** The code points of a string, as [for ... of] visits them. *)
Definition isHighSurrogate (c : char) : bool := ((55296 <=? c) && (c <=? 56319))%N.
Definition isLowSurrogate (c : char) : bool := ((56320 <=? c) && (c <=? 57343))%N.

Fixpoint codePoints (s : jsstring) : list jsstring :=
  match s with
  | [] => []
  | c :: rest =>
      match rest with
      | d :: rest' =>
          if isHighSurrogate c && isLowSurrogate d
          then match codePoints rest with
               | _ :: tail => [c; d] :: tail
               | [] => [[c; d]]
               end
          else [c] :: codePoints rest
      | [] => [[c]]
      end
  end.

Section Access.
Context {B : Builtins}.

(** [v.k]: reading a property of [undefined] or [null] throws. *)
Definition getProp (v : value) (k : jsstring) : result value :=
  if isNullish v then Throw (TypeError k) else Ok (prop v k).

(** [v.map(f)]: defined on arrays; anything else the handlers can hold has
    no callable [map]. *)
Definition Array_map {A} (v : value) (f : value -> result A) : result (list A) :=
  match v with
  | VArr items => mapM f items
  | _ => Throw (TypeError (js "map"))
  end.

(** [v.slice(0, n)]: arrays and strings have it. *)
Definition slice (v : value) (n : nat) : result value :=
  match v with
  | VArr items => Ok (VArr (firstn n items))
  | VStr s => Ok (VStr (slice0 n s))
  | _ => Throw (TypeError (js "slice"))
  end.

(** The elements [for (const x of v)] visits. *)
Definition iterate (v : value) : result (list value) :=
  match v with
  | VArr items => Ok items
  | VStr s => Ok (List.map VStr (codePoints s))
  | _ => Throw (TypeError (js "iterator"))
  end.

End Access.

(** ** Effects: the calls to the model and the console *)

Record world := {
  calls : list value;      (* arguments of chat.completions.create *)
  console : list value     (* arguments of console.error *)
}.

Definition init : world := {| calls := []; console := [] |}.

Definition M (A : Type) : Type := world -> result A * world.

Definition ret {A} (a : A) : M A := fun w => (Ok a, w).

Definition bind {A C} (c : M A) (k : A -> M C) : M C :=
  fun w => match c w with
           | (Ok a, w') => k a w'
           | (Throw e, w') => (Throw e, w')
           end.

Definition lift {A} (r : result A) : M A := fun w => (r, w).

(** [try { c } catch (err) { h err }] *)
Definition try_catch {A} (c : M A) (h : value -> M A) : M A :=
  fun w => match c w with
           | (Ok a, w') => (Ok a, w')
           | (Throw e, w') => h e w'
           end.

Definition console_error (e : value) : M unit :=
  fun w => (Ok tt, {| calls := calls w; console := console w ++ [e] |}).

(** [await client.chat.completions.create(request)], where [create] is the
    upstream service: it resolves with a completion or rejects. *)
Definition chat_completions_create
    (create : value -> result value) (request : value) : M value :=
  fun w => (create request,
            {| calls := calls w ++ [request]; console := console w |}).

(** What a handler answers. *)
Record Response := {
  statusCode : Z;
  headers : list (jsstring * jsstring);
  body : value
}.

End JS.

Declare Scope js_scope.
Delimit Scope js_scope with js.
Notation "x <- c ;; k" := (JS.bind c (fun x => k))
  (at level 61, c at next level, right associativity) : js_scope.
Notation "x <~ r ;; k" := (JS.rbind r (fun x => k))
  (at level 61, r at next level, right associativity) : js_scope.

(* ================================================================== *)
(** * netlify/functions/evaluate.js *)
(* ================================================================== *)

Module Evaluate.
Import JS.
Local Open Scope js_scope.

(** ** The module as the engine parses it *)

(** The declarations at the top of the module: the import, the two
    [const] and the two functions. *)
Definition moduleScope : list (jsstring * Z) :=
  [(js "OpenAI", 5); (js "config", 7); (js "client", 11);
   (js "readJson", 131); (js "clampNumber", 142)].

(** The declarations that stand directly in the [try] block of the
    default export (lines 14 to 124): the destructuring of line 17 binds
    six names, and line 107 declares [maxMarks] again. *)
Definition tryBlock : list (jsstring * Z) :=
  [(js "body", 16);
   (js "question", 17); (js "maxMarks", 17); (js "examType", 17);
   (js "timeLimit", 17); (js "texts", 17); (js "images", 17);
   (js "userContent", 22);
   (js "systemPrompt", 53);
   (js "completion", 92);
   (js "raw", 102);
   (js "parsed", 103);
   (js "rawOutOf100", 106);
   (js "maxMarks", 107);
   (js "totalScaled", 109);
   (js "resp", 111)].

(** The block of [if (texts.length)], the head of the loop over the images
    and the callback of the promise of [readJson]. *)
Definition textsBlock : list (jsstring * Z) :=
  [(js "bigText", 36); (js "trimmed", 38)].

Definition imagesLoop : list (jsstring * Z) := [(js "img", 44)].

Definition promiseBody : list (jsstring * Z) := [(js "data", 133)].

Definition blocks : list (list (jsstring * Z)) :=
  [moduleScope; tryBlock; textsBlock; imagesLoop; promiseBody].

(** The early error of the module, if there is one: the name declared
    twice, and the two lines.  A module with an early error is rejected
    when it is loaded; its default export never answers a request. *)
Definition earlyError : option (jsstring * Z * Z) := firstRedeclared blocks.

(** ** Expressions of the module *)

Definition nl : jsstring := [10%N].

(** The cap on the compiled text, in code units. *)
Definition cap : Z := 150000.

(** [bigText.length > 150000 ? bigText.slice(0, 150000) + "\n...[trimmed]"
    : bigText] *)
Definition trimmed (bigText : jsstring) : jsstring :=
  if cap <? str_length bigText
  then slice0 (Z.to_nat cap) bigText ++ nl ++ js "...[trimmed]"
  else bigText.


Section Helpers.
Context {B : Builtins}.

Definition clampNumber (n : value) (min max : number) : result number :=
  n <~ ToNumber n ;;
  if isNaN n then Ok min
  else Ok (Math_max min (Math_min max n)).

End Helpers.

End Evaluate.

(* ================================================================== *)
(** * netlify/functions/evaluate.mjs (the second handler) *)
(* ================================================================== *)

Module Part000.
Import JS.
Local Open Scope js_scope.

(** The event: its method and its body, a string or [null]. *)
Record Event := {
  httpMethod : jsstring;
  eventBody : value
}.

(** The declarations of the module, block by block: the top of the
    module, the [try] block of [handler] (lines 5 to 115), the block of
    [if (texts.length)] and the head of the loop over the images. *)
Definition moduleScope : list (jsstring * Z) :=
  [(js "OpenAI", 2); (js "handler", 4); (js "clamp", 121)].

Definition tryBlock : list (jsstring * Z) :=
  [(js "apiKey", 10);
   (js "client", 14);
   (js "body", 16);
   (js "question", 17); (js "maxMarks", 17); (js "examType", 17);
   (js "timeLimit", 17); (js "texts", 17); (js "images", 17);
   (js "userContent", 24);
   (js "systemPrompt", 47);
   (js "completion", 80);
   (js "raw", 91);
   (js "parsed", 92);
   (js "rawOutOf100", 95);
   (js "scaled", 96);
   (js "resp", 98)].

Definition textsBlock : list (jsstring * Z) :=
  [(js "bigText", 35); (js "trimmed", 36)].

Definition imagesLoop : list (jsstring * Z) := [(js "img", 41)].

Definition blocks : list (list (jsstring * Z)) :=
  [moduleScope; tryBlock; textsBlock; imagesLoop].

Definition earlyError : option (jsstring * Z * Z) := firstRedeclared blocks.

Definition nl : jsstring := [10%N].

Definition textPart (text : jsstring) : value :=
  VObj [(js "type", VStr (js "text")); (js "text", VStr text)].

Definition imagePart (url : value) : value :=
  VObj [(js "type", VStr (js "image_url"));
        (js "image_url", VObj [(js "url", url)])].

(** A destructuring default: [x = []]. *)
Definition orEmptyArray (v : value) : value :=
  match v with VUndefined => VArr [] | _ => v end.

(** [bigText.length > 150000 ? bigText.slice(0, 150000) + "\n...[trimmed]"
    : bigText] *)
Definition trimmed (bigText : jsstring) : jsstring :=
  if 150000 <? str_length bigText
  then slice0 (Z.to_nat 150000) bigText ++ nl ++ js "...[trimmed]"
  else bigText.

(** [Math.round((rawOutOf100 / 100) * marks)], where [marks] is
    [Number(maxMarks)]: the quotient and the product are binary64
    operations. *)
Definition scaled (rawOutOf100 marks : number) : number :=
  Math_round (fmul (fdiv rawOutOf100 (num 100)) marks).

(** The object a branch returns. *)
Definition reply (code : Z) (hs : list (jsstring * jsstring)) (text : value)
  : Response :=
  {| statusCode := code; headers := hs; body := text |}.

Section Handler.
Context {B : Builtins}.

(** [process.env.OPENAI_API_KEY] (a string or [undefined]), the upstream
    model behind the client built from it, and the text of the
    [systemPrompt] template literal. *)
Variable OPENAI_API_KEY : value.
Variable create : value -> result value.
Variable systemPrompt : jsstring.

(** [JSON.parse(event.body || "{}")] *)
Definition parseBody (event : Event) : result value :=
  text <~ ToString (or_else (eventBody event) (VStr (js "{}"))) ;;
  JSON_parse text.

Definition clamp (n : value) (min max : number) : result number :=
  n <~ ToNumber n ;;
  if isNaN n then Ok min
  else Ok (Math_max min (Math_min max n)).

Definition questionText (question examType timeLimit maxMarks : value)
  : result jsstring :=
  q <~ ToString question ;;
  e <~ ToString (or_else examType (VStr (js "GS"))) ;;
  t <~ (if ToBoolean timeLimit
        then limit <~ ToString timeLimit ;;
             Ok (js "- Time Limit (mins): " ++ limit ++ nl)
        else Ok []) ;;
  m <~ ToString maxMarks ;;
  Ok (js "Question:" ++ nl ++ q ++ nl ++ nl
      ++ js "Context:" ++ nl ++ js "- Exam Type: " ++ e ++ nl
      ++ t
      ++ js "- Max Marks: " ++ m ++ nl ++ nl
      ++ js "Candidate Answer (compiled text sections follow).").

Definition sourceBlock (t : value) : result jsstring :=
  source <~ getProp t (js "source") ;;
  label <~ ToString (or_else source (VStr (js "unknown"))) ;;
  text <~ getProp t (js "text") ;;
  body <~ ToString text ;;
  Ok (nl ++ nl ++ js "[Source: " ++ label ++ js "]" ++ nl ++ body).

(** The user message: the question part, then the compiled text, then the
    images and the OCR instruction. *)
Definition userContent
    (question examType timeLimit maxMarks texts images : value)
  : result (list value) :=
  first <~ questionText question examType timeLimit maxMarks ;;
  let content := [textPart first] in
  tlen <~ getProp texts (js "length") ;;
  content <~ (if ToBoolean tlen
              then parts <~ Array_map texts sourceBlock ;;
                   let bigText := join nl parts in
                   Ok (content ++ [textPart (trimmed bigText)])
              else Ok content) ;;
  ilen <~ getProp images (js "length") ;;
  if ToBoolean ilen
  then
    first12 <~ slice images 12 ;;
    imgs <~ iterate first12 ;;
    pushed <~ mapM (fun img =>
                      url <~ getProp img (js "dataUrl") ;; Ok (imagePart url))
                   imgs ;;
    Ok ((content ++ pushed) ++ [textPart (js
      "If images contain handwriting or printed text, perform OCR before evaluation.")])
  else Ok content.

Definition request (userContent : list value) : value :=
  VObj [(js "model", VStr (js "gpt-4o-mini"));
        (js "temperature", VNum (binary64 (2 # 10)));
        (js "response_format", VObj [(js "type", VStr (js "json_object"))]);
        (js "messages",
         VArr [VObj [(js "role", VStr (js "system"));
                     (js "content", VStr systemPrompt)];
               VObj [(js "role", VStr (js "user"));
                     (js "content", VArr userContent)]])].

(** [completion.choices?.[0]?.message?.content || "{}"] *)
Definition rawReply (completion : value) : result value :=
  choices <~ getProp completion (js "choices") ;;
  Ok (or_else (optProp (optProp (optIndex choices 0) (js "message"))
                       (js "content"))
              (VStr (js "{}"))).

(** [try { parsed = JSON.parse(raw); } catch { parsed = {}; }] *)
Definition parsed (raw : value) : value :=
  match text <~ ToString raw ;; JSON_parse text with
  | Ok p => p
  | Throw _ => VObj []
  end.

(** The "Parse + scale" part: from the reply to the response object. *)
Definition respObject (maxMarks raw : value) : result value :=
  let parsed := parsed raw in
  r <~ getProp parsed (js "rawOutOf100") ;;
  rawOutOf100 <~ clamp r (num 0) (num 100) ;;
  marks <~ ToNumber maxMarks ;;
  let scaled := scaled rawOutOf100 marks in
  rubric <~ getProp parsed (js "rubric") ;;
  strengths <~ getProp parsed (js "strengths") ;;
  weaknesses <~ getProp parsed (js "weaknesses") ;;
  suggestions <~ getProp parsed (js "suggestions") ;;
  inline_comments <~ getProp parsed (js "inline_comments") ;;
  Ok (VObj [(js "rawOutOf100", VNum rawOutOf100);
            (js "rubric", or_else rubric (VObj []));
            (js "strengths", or_else strengths (VArr []));
            (js "weaknesses", or_else weaknesses (VArr []));
            (js "suggestions", or_else suggestions (VArr []));
            (js "inline_comments", or_else inline_comments (VArr []));
            (js "totalScaled", VNum scaled);
            (js "maxMarks", VNum marks)]).

Definition handler (event : Event) : M Response :=
  try_catch
    (if negb (str_eqb (httpMethod event) (js "POST"))
     then ret (reply 405 [] (VStr (js "Method not allowed")))
     else
       let apiKey := OPENAI_API_KEY in
       if negb (ToBoolean apiKey)
       then ret (reply 500 [] (VStr (js "OPENAI_API_KEY is not set")))
       else
         body <- lift (parseBody event) ;;
         question <- lift (getProp body (js "question")) ;;
         maxMarks <- lift (getProp body (js "maxMarks")) ;;
         examType <- lift (getProp body (js "examType")) ;;
         timeLimit <- lift (getProp body (js "timeLimit")) ;;
         texts <- lift (getProp body (js "texts")) ;;
         images <- lift (getProp body (js "images")) ;;
         let texts := orEmptyArray texts in
         let images := orEmptyArray images in
         if negb (ToBoolean question) || negb (ToBoolean maxMarks)
         then ret (reply 400 [] (VStr (js "Missing question or maxMarks")))
         else
           content <- lift (userContent question examType timeLimit maxMarks
                                        texts images) ;;
           completion <- chat_completions_create create (request content) ;;
           raw <- lift (rawReply completion) ;;
           resp <- lift (respObject maxMarks raw) ;;
           ret (reply 200 [(js "Content-Type", js "application/json")]
                      (VStr (JSON_stringify resp))))
    (fun err =>
       _ <- console_error err ;;
       ret (reply 500 []
                  (or_else (optProp err (js "message"))
                           (VStr (js "Internal error"))))).

End Handler.

End Part000.

(* ================================================================== *)
(** * public/app.js *)
(* ================================================================== *)

Module App.
Import JS.

Definition nl : jsstring := [10%N].

(** ** PDF *)

(** A page of an opened PDF document: the [str] of each item of its text
    content, and the data URL its rendering on a canvas yields. *)
Record Page := {
  items : list jsstring;
  rendered : jsstring
}.

(** An opened document; [pdf.numPages] is the length of the list. *)
Definition Pdf := list Page.

Definition numPages (pdf : Pdf) : nat := List.length pdf.

(** The text loop: for [i] from the given index on, append
    ["\n\n[Page i] " + pageText]. *)
Fixpoint pagesText (i : N) (pages : list Page) : jsstring :=
  match pages with
  | [] => []
  | page :: rest =>
      (nl ++ nl ++ js "[Page " ++ decimal i ++ js "] " ++ join (js " ") (items page))
      ++ pagesText (i + 1) rest
  end.

Record Extracted := {
  text : jsstring;
  pagesAsImages : list jsstring
}.

Definition isEmpty (s : jsstring) : bool :=
  match s with [] => true | _ => false end.

Definition extractFromPDF (pdf : Pdf) : Extracted :=
  let fullText := pagesText 1 (firstn (Nat.min (numPages pdf) 20) pdf) in
  let pagesAsImages :=
    if isEmpty fullText || (str_length (trim fullText) <? 500)
    then List.map rendered (firstn (Nat.min (numPages pdf) 8) pdf)
    else [] in
  {| text := fullText; pagesAsImages := pagesAsImages |}.

(** The payload under construction in the click handler. *)
Record TextSource := { source : jsstring; sourceText : jsstring }.
Record ImageBlob := { mime : jsstring; dataUrl : jsstring }.

Record Payload := {
  texts : list TextSource;
  images : list ImageBlob
}.

(** The [ext === "pdf"] branch of the loop over the files, for the file
    named [name] whose document is [pdf]. *)
Definition pdfBranch (name : jsstring) (pdf : Pdf) (p : Payload) : Payload :=
  let e := extractFromPDF pdf in
  if negb (isEmpty (text e)) && (500 <? str_length (trim (text e)))
  then {| texts := texts p ++ [{| source := name; sourceText := text e |}];
          images := images p |}
  else {| texts := texts p;
          images := images p ++
            List.map (fun url => {| mime := js "image/jpeg"; dataUrl := url |})
                     (firstn (Nat.min (List.length (pagesAsImages e)) 8)
                             (pagesAsImages e)) |}.

(** ** PPTX *)

(** [zip.files]: the entries of the archive, path and content, in the
    order [Object.keys] lists them. *)
Definition Zip := list (jsstring * jsstring).

(** A match of [/slide(\d+)\.xml/] that starts at the head of [s]: the
    digits it captures. *)
Definition matchHere (s : jsstring) : option jsstring :=
  if startsWith s (js "slide")
  then
    let rest := skipn 5 s in
    let ds := takeDigits rest in
    if negb (isEmpty ds) && startsWith (skipn (List.length ds) rest) (js ".xml")
    then Some ds
    else None
  else None.

(** [path.match(/slide(\d+)\.xml/)?.[1]]: the capture of the leftmost
    match. *)
Fixpoint matchSlide (path : jsstring) : option jsstring :=
  match matchHere path with
  | Some ds => Some ds
  | None =>
      match path with
      | [] => None
      | _ :: rest => matchSlide rest
      end
  end.

(** [Number(path.match(/slide(\d+)\.xml/)?.[1] || 0)] *)
Definition slideNumber (path : jsstring) : number :=
  match matchSlide path with
  | Some ds => digitsToNumber ds
  | None => num 0
  end.

(** The comparator handed to [sort]. *)
Definition compareSlides (a b : jsstring) : number :=
  let na := slideNumber a in
  let nb := slideNumber b in
  fsub na nb.

(** [Array.prototype.sort] with a comparator: a stable sort; [y] goes
    before [x] when the comparator of [x] and [y] is above 0; otherwise
    (below 0, 0, or [NaN], which counts as 0) [x], which came first, stays
    first. *)
Fixpoint insert {A} (cmp : A -> A -> number) (x : A) (l : list A) : list A :=
  match l with
  | [] => [x]
  | y :: rest =>
      if num_ltb (num 0) (cmp x y) then y :: insert cmp x rest else x :: l
  end.

Fixpoint sort {A} (cmp : A -> A -> number) (l : list A) : list A :=
  match l with
  | [] => []
  | x :: rest => insert cmp x (sort cmp rest)
  end.

Definition isSlidePath (p : jsstring) : bool :=
  startsWith p (js "ppt/slides/slide") && endsWith p (js ".xml").

(** [slideFiles] after the sort. *)
Definition slideFiles (zip : Zip) : list jsstring :=
  sort compareSlides (List.filter isSlidePath (List.map fst zip)).

(** The captures of [xml.matchAll(/<a:t>([\s\S]*?)<\/a:t>/g)]. *)
Fixpoint untilClose (s : jsstring) : option (jsstring * jsstring) :=
  if startsWith s (js "</a:t>")
  then Some ([], skipn 6 s)
  else
    match s with
    | [] => None
    | c :: rest =>
        match untilClose rest with
        | Some (captured, after) => Some (c :: captured, after)
        | None => None
        end
    end.

Fixpoint textRuns (fuel : nat) (s : jsstring) : list jsstring :=
  match fuel, s with
  | S fuel', _ :: rest =>
      if startsWith s (js "<a:t>")
      then
        match untilClose (skipn 5 s) with
        | Some (captured, after) => captured :: textRuns fuel' after
        | None => []
        end
      else textRuns fuel' rest
  | _, _ => []
  end.

Fixpoint entry (path : jsstring) (zip : Zip) : jsstring :=
  match zip with
  | [] => []
  | (p, xml) :: rest => if str_eqb path p then xml else entry path rest
  end.

Definition slideText (zip : Zip) (path : jsstring) : jsstring :=
  let xml := entry path zip in
  let pageText := join (js " ") (textRuns (List.length xml) xml) in
  let slideNo := match matchSlide path with Some ds => ds | None => js "?" end in
  nl ++ nl ++ js "[Slide " ++ slideNo ++ js "] " ++ pageText.

Definition extractFromPPTX (zip : Zip) : jsstring :=
  List.concat (List.map (slideText zip) (firstn 40 (slideFiles zip))).

End App.

(* ================================================================== *)
(** * A test engine and sample requests *)
(* ================================================================== *)

(** The examples below run the handler on an engine that prints numbers
    with a finite decimal expansion, reads plain decimal numerals (to the
    nearest binary64 number), serialises values as [JSON.stringify] does,
    and parses exactly the JSON texts of the sample values (any other text
    is a syntax error). *)
Module Fixture.
Import JS.

Definition quote : jsstring := [34%N].

Fixpoint fraction (fuel : nat) (r d : Z) : jsstring :=
  match fuel with
  | O => []
  | S fuel' =>
      if r =? 0 then []
      else Z.to_N (48 + (10 * r) / d) :: fraction fuel' ((10 * r) mod d) d
  end.

Definition Number_toString (n : number) : jsstring :=
  match n with
  | NaN => js "NaN"
  | PosInf => js "Infinity"
  | NegInf => js "-Infinity"
  | Fin q =>
      let a := Z.abs (Qnum q) in
      let d := Z.pos (Qden q) in
      (if Qnum q <? 0 then js "-" else [])
      ++ decimal (Z.to_N (a / d))
      ++ (if a mod d =? 0 then [] else js "." ++ fraction 20 (a mod d) d)
  end.

Definition allDigits (s : jsstring) : bool :=
  negb (Nat.eqb (List.length s) 0) && forallb isDigit s.

Definition unsignedNumeral (s : jsstring) : number :=
  let whole := takeDigits s in
  match skipn (List.length whole) s with
  | [] => if allDigits whole then num (digitsToZ whole) else NaN
  | c :: frac =>
      if N.eqb c 46 && allDigits whole && allDigits frac
      then Fin (Qmake (digitsToZ (whole ++ frac))
                      (Z.to_pos (10 ^ Z.of_nat (List.length frac))))
      else NaN
  end.

Definition String_toNumber (s : jsstring) : number :=
  match trim s with
  | [] => num 0
  | c :: rest =>
      if N.eqb c 45
      then match unsignedNumeral rest with
           | Fin q => binary64 (Qopp q)
           | other => other
           end
      else rounded (unsignedNumeral (c :: rest))
  end.

Definition quoted (s : jsstring) : jsstring :=
  quote
  ++ List.concat (List.map (fun c =>
       if N.eqb c 34 then [92%N; 34%N]
       else if N.eqb c 92 then [92%N; 92%N]
       else if N.eqb c 10 then [92%N; 110%N]
       else [c]) s)
  ++ quote.

Definition isUndefined (v : value) : bool :=
  match v with VUndefined => true | _ => false end.

Fixpoint JSON_stringify (v : value) : jsstring :=
  match v with
  | VUndefined | VNull => js "null"
  | VBool true => js "true"
  | VBool false => js "false"
  | VNum (Fin q) => Number_toString (Fin q)
  | VNum _ => js "null"
  | VStr s => quoted s
  | VArr items => js "[" ++ join (js ",") (List.map JSON_stringify items) ++ js "]"
  | VObj fields =>
      js "{"
      ++ join (js ",")
           (List.flat_map (fun kv : jsstring * value =>
              let (k, x) := kv in
              if isUndefined x then []
              else [quoted k ++ js ":" ++ JSON_stringify x]) fields)
      ++ js "}"
  end.

Definition message (text : jsstring) : value :=
  VObj [(js "message", VStr text)].

(** The sample bodies and replies. *)
Definition bodyFractional : value :=
  VObj [(js "question", VStr (js "Discuss X")); (js "maxMarks", VNum (Fin (25 # 2)))].

Definition bodyFifteen : value :=
  VObj [(js "question", VStr (js "Discuss X")); (js "maxMarks", VNum (num 15));
        (js "texts", VArr [VObj [(js "source", VStr (js "a.docx"));
                                 (js "text", VStr (js "An answer."))]])].

Definition bodyNegative : value :=
  VObj [(js "question", VStr (js "Discuss X")); (js "maxMarks", VNum (num (-5)))].

Definition bodyNullTexts : value :=
  VObj [(js "question", VStr (js "Discuss X")); (js "maxMarks", VNum (num 10));
        (js "texts", VNull)].

Definition bodyNoQuestion : value :=
  VObj [(js "maxMarks", VNum (num 10)); (js "examType", VStr (js "GS"))].

Definition bodyFifty : value :=
  VObj [(js "question", VStr (js "Discuss X")); (js "maxMarks", VNum (num 50))].

Definition replyFull : value :=
  VObj [(js "rawOutOf100", VNum (num 100))].

Definition replyTwentyNine : value :=
  VObj [(js "rawOutOf100", VNum (num 29))].

Definition replySeventy : value :=
  VObj [(js "rawOutOf100", VNum (num 70));
        (js "strengths", VArr [VStr (js "Clear structure")])].

Definition samples : list value :=
  [VObj []; bodyFractional; bodyFifteen; bodyNegative; bodyNullTexts;
   bodyNoQuestion; bodyFifty; replyFull; replySeventy; replyTwentyNine;
   VNull].

Definition JSON_parse (s : jsstring) : result value :=
  match List.find (fun v => str_eqb (JSON_stringify v) s) samples with
  | Some v => Ok v
  | None => Throw (message (js "Unexpected token in JSON"))
  end.

#[export] Instance engine : Builtins := {|
  JS.JSON_parse := JSON_parse;
  JS.JSON_stringify := JSON_stringify;
  JS.Number_toString := Number_toString;
  JS.String_toNumber := String_toNumber;
  JS.TypeError := fun k => message (js "TypeError: " ++ k)
|}.

(** A POST event whose body is the JSON text of [v]. *)
Definition postEvent (v : value) : Part000.Event :=
  {| Part000.httpMethod := js "POST";
     Part000.eventBody := VStr (JSON_stringify v) |}.

(** An upstream model that answers every request with the text [content]. *)
Definition answering (content : jsstring) (request : value) : result value :=
  Ok (VObj [(js "choices",
             VArr [VObj [(js "index", VNum (num 0));
                         (js "message",
                          VObj [(js "role", VStr (js "assistant"));
                                (js "content", VStr content)])]])]).

Definition prompt : jsstring := js "You are a strict evaluator.".

Definition apiKey : value := VStr (js "sk-test").

End Fixture.

(** Sample documents for the content assembler. *)
Module Documents.
Import JS.

(** A PDF of one page whose only text item is [n] letters: the extracted
    text is ["\n\n[Page 1] "] followed by them, [n + 9] code units once
    trimmed. *)
Definition onePage (n : nat) : App.Pdf :=
  [{| App.items := [repeat 97%N n];
      App.rendered := js "data:image/jpeg;base64,/9j/4AAQ" |}].

Definition empty : App.Payload := {| App.texts := []; App.images := [] |}.

(** An archive whose slides are listed out of order. *)
Definition deck : App.Zip :=
  [(js "ppt/slides/slide2.xml", js "<p:sld><a:t>Body</a:t></p:sld>");
   (js "ppt/slides/slide10.xml", js "<p:sld><a:t>The</a:t><a:t>end</a:t></p:sld>");
   (js "ppt/presentation.xml", js "<p:presentation/>");
   (js "ppt/slides/slide1.xml", js "<p:sld><a:t>Title</a:t></p:sld>")].


(** An archive with two slides whose indices are above [2^53], the
    larger one listed first. *)
Definition hugeDeck : App.Zip :=
  [(js "ppt/slides/slide9007199254740993.xml", js "<p:sld><a:t>Later</a:t></p:sld>");
   (js "ppt/slides/slide9007199254740992.xml", js "<p:sld><a:t>Earlier</a:t></p:sld>")].

End Documents.

(** The pieces of a run on a sample body. *)
Module Runs.
Import JS Fixture.

(** The user message built for the body [b]. *)
Definition contentOf (b : value) : list value :=
  match Part000.userContent (prop b (js "question")) (prop b (js "examType"))
          (prop b (js "timeLimit")) (prop b (js "maxMarks"))
          (Part000.orEmptyArray (prop b (js "texts")))
          (Part000.orEmptyArray (prop b (js "images"))) with
  | Ok content => content
  | Throw _ => []
  end.

(** The completion [answering content] resolves with. *)
Definition completionOf (content : jsstring) : value :=
  match answering content VUndefined with
  | Ok completion => completion
  | Throw _ => VUndefined
  end.

Definition syntaxError : value := message (js "Unexpected token in JSON").

End Runs.

(* ================================================================== *)
(** * The answers of the handler, and the words of the spec *)
(* ================================================================== *)

Module Outcome.
Import JS.

(** The world after the call to the model. *)
Definition called (request : value) (w : world) : world :=
  {| calls := calls w ++ [request]; console := console w |}.

Section Outcome.
Context {B : Builtins}.

(** What the [catch] clause answers. *)
Definition failure (e : value) (w : world) : result Response * world :=
  (Ok {| statusCode := 500; headers := [];
         body := or_else (optProp e (js "message")) (VStr (js "Internal error")) |},
   {| calls := calls w; console := console w ++ [e] |}).

(** The answer that carries the response object. *)
Definition success (resp : value) (w : world) : result Response * world :=
  (Ok {| statusCode := 200;
         headers := [(js "Content-Type", js "application/json")];
         body := VStr (JSON_stringify resp) |}, w).

Definition finish (r : result value) (w : world) : result Response * world :=
  match r with
  | Ok resp => success resp w
  | Throw e => failure e w
  end.

Definition badRequest : Response :=
  {| statusCode := 400; headers := [];
     body := VStr (js "Missing question or maxMarks") |}.

End Outcome.

Definition jsonHeaders : list (jsstring * jsstring) :=
  [(js "Content-Type", js "application/json")].

(** The response object when the reply did not parse: every field at its
    default, for the marks [m] of the request. *)
Definition degraded (m : number) : value :=
  VObj [(js "rawOutOf100", VNum (num 0));
        (js "rubric", VObj []);
        (js "strengths", VArr []);
        (js "weaknesses", VArr []);
        (js "suggestions", VArr []);
        (js "inline_comments", VArr []);
        (js "totalScaled", VNum (Part000.scaled (num 0) m));
        (js "maxMarks", VNum m)].

End Outcome.

Module Spec.
Import JS.

(** The spec's words for the first case of the clamp property: a value is
    numeric when it is a number other than [NaN]. *)
Definition isNumeric (v : value) : bool :=
  match v with
  | VNum n => negb (isNaN n)
  | _ => false
  end.

(** The spec's words for the total, [round(rawOutOf100 / 100 * maxMarks)],
    over the rationals; a half goes up, as in the scenario of the spec,
    where [round(70 / 100 * 15)] is 11. *)
Definition total (rawOutOf100 maxMarks : Q) : Z :=
  Qfloor (Qplus (Qmult (Qdiv rawOutOf100 (inject_Z 100)) maxMarks) (1 # 2)).

(** The slide file with the index [n]: [ppt/slides/slide<n>.xml]. *)
Definition slidePath (n : N) : jsstring :=
  js "ppt/slides/slide" ++ decimal n ++ js ".xml".

End Spec.

(* ================================================================== *)
(** * public/app.js, continued: files, the loop over them, rendering *)
(* ================================================================== *)

Module Client.
Import JS.
Local Open Scope js_scope.

(** A file the user dropped: its name and declared type, and what each
    reader makes of its bytes: [FileReader.readAsDataURL], the PDF
    library, the DOCX extractor ([res.value]) and the archive reader.
    Each of them resolves or rejects. *)
Record File := {
  name : jsstring;
  type : jsstring;
  dataURL : result jsstring;
  pdf : result App.Pdf;
  docx : result jsstring;
  zip : result App.Zip
}.

(** [s.split(".").pop()]: what follows the last dot, or all of [s]. *)
Fixpoint lastSegment (s : jsstring) : jsstring :=
  match s with
  | [] => []
  | c :: rest =>
      if existsb (N.eqb 46) rest then lastSegment rest
      else if N.eqb c 46 then rest
      else s
  end.

(** [text && text.trim().length > 0] *)
Definition hasText (text : jsstring) : bool :=
  negb (App.isEmpty text) && (0 <? str_length (trim text)).

(** [res.value || ""] *)
Definition extractFromDOCX (value : jsstring) : jsstring :=
  match value with [] => [] | _ => value end.

(** The replacement [escapeHtml] makes on a string: the ampersand, the
    two angle brackets, the double and the single quote become entities. *)
Definition escapeChar (c : char) : jsstring :=
  if N.eqb c 38 then js "&amp;"
  else if N.eqb c 60 then js "&lt;"
  else if N.eqb c 62 then js "&gt;"
  else if N.eqb c 34 then js "&quot;"
  else if N.eqb c 39 then js "&#39;"
  else [c].

Definition escapeText (s : jsstring) : jsstring :=
  List.concat (List.map escapeChar s).

Definition placeholder : jsstring :=
  js "<span class='text-gray-500'>" ++ [8212%N] ++ js "</span>".

Definition listOpen : jsstring :=
  js "<ul class=" ++ [34%N] ++ js "list-disc ml-5" ++ [34%N] ++ js ">".

Section Engine.
Context {B : Builtins}.

(** [String.prototype.toLowerCase], the engine's. *)
Variable toLowerCase : jsstring -> jsstring.

(** [f.name.toLowerCase().split(".").pop()] *)
Definition ext (f : File) : jsstring := lastSegment (toLowerCase (name f)).

Definition ok : list jsstring :=
  [js "application/pdf";
   js "application/vnd.openxmlformats-officedocument.wordprocessingml.document";
   js "application/vnd.openxmlformats-officedocument.presentationml.presentation";
   js "image/png";
   js "image/jpeg"].

(** [isAllowed(f)]; the refusal is announced with [alert]. *)
Definition isAllowed (f : File) : bool :=
  if negb (existsb (str_eqb (type f)) ok)
     && negb (endsWith (toLowerCase (name f)) (js ".pptx"))
     && negb (endsWith (toLowerCase (name f)) (js ".docx"))
     && negb (endsWith (toLowerCase (name f)) (js ".pdf"))
  then false
  else true.

(** [handleFiles(fileListObj)] on the list [files]: the list afterwards
    and the alerts raised on the way. *)
Fixpoint handleFiles (fileListObj files : list File) (alerts : list jsstring)
  : list File * list jsstring :=
  match fileListObj with
  | [] => (files, alerts)
  | f :: rest =>
      if negb (isAllowed f)
      then handleFiles rest files (alerts ++ [js "Unsupported: " ++ name f])
      else handleFiles rest (files ++ [f]) alerts
  end.

(** The body of the loop of the click handler, for one file. *)
Definition processFile (f : File) (p : App.Payload) : result App.Payload :=
  let ext := ext f in
  if startsWith (type f) (js "image/")
  then
    dataUrl <~ dataURL f ;;
    Ok {| App.texts := App.texts p;
          App.images := App.images p
                        ++ [{| App.mime := type f; App.dataUrl := dataUrl |}] |}
  else if str_eqb ext (js "pdf")
  then
    doc <~ pdf f ;;
    Ok (App.pdfBranch (name f) doc p)
  else if str_eqb ext (js "docx")
  then
    value <~ docx f ;;
    let text := extractFromDOCX value in
    if hasText text
    then Ok {| App.texts := App.texts p
                            ++ [{| App.source := name f; App.sourceText := text |}];
               App.images := App.images p |}
    else Ok p
  else if str_eqb ext (js "pptx")
  then
    archive <~ zip f ;;
    let text := App.extractFromPPTX archive in
    if hasText text
    then Ok {| App.texts := App.texts p
                            ++ [{| App.source := name f; App.sourceText := text |}];
               App.images := App.images p |}
    else Ok p
  else Ok p.

Fixpoint processFiles (fs : list File) (p : App.Payload) : result App.Payload :=
  match fs with
  | [] => Ok p
  | f :: rest => p' <~ processFile f p ;; processFiles rest p'
  end.

(** The [texts] and [images] of the payload: the loop over
    [files.slice(0, 10)], from two empty arrays. *)
Definition collect (files : list File) : result App.Payload :=
  processFiles (firstn 10 files) {| App.texts := []; App.images := [] |}.

(** The two checks that open the click handler, on the text of the
    question box and of the marks box: the alert they raise, if any. *)
Definition check (questionBox maxMarksBox : jsstring) : option jsstring :=
  let question := trim questionBox in
  let maxMarks :=
    match maxMarksBox with
    | [] => num 0
    | _ => String_toNumber maxMarksBox
    end in
  if negb (ToBoolean (VStr question))
  then Some (js "Please paste the exact question.")
  else if negb (ToBoolean (VNum maxMarks)) || num_leb maxMarks (num 0)
  then Some (js "Enter valid Max Marks.")
  else None.

(** [escapeHtml(s)]: only a string has [replace]. *)
Definition escapeHtml (s : value) : result jsstring :=
  match s with
  | VStr text => Ok (escapeText text)
  | _ => Throw (TypeError (js "replace"))
  end.

(** [bullet(list)] *)
Definition bullet (list : value) : result jsstring :=
  if negb (ToBoolean list) || negb (ToBoolean (prop list (js "length")))
  then Ok placeholder
  else
    items <~ Array_map list (fun x =>
               escaped <~ escapeHtml x ;;
               Ok (js "<li>" ++ escaped ++ js "</li>")) ;;
    Ok (listOpen ++ join [] items ++ js "</ul>").

End Engine.

End Client.

(** Sample files, and an engine's lower-casing on ASCII names. *)
Module Desk.
Import JS.

Definition lowerChar (c : char) : char :=
  if ((65 <=? c) && (c <=? 90))%N then (c + 32)%N else c.

Definition asciiLower (s : jsstring) : jsstring := List.map lowerChar s.

(** What a reader answers on bytes that are not its format. *)
Definition notThis {A} : result A :=
  Throw (Fixture.message (js "Unsupported file format.")).

Definition photo : Client.File :=
  {| Client.name := js "Page1.PNG"; Client.type := js "image/png";
     Client.dataURL := Ok (js "data:image/png;base64,iVBORw0KGgo=");
     Client.pdf := notThis; Client.docx := notThis; Client.zip := notThis |}.

Definition essay : Client.File :=
  {| Client.name := js "Essay.docx";
     Client.type :=
       js "application/vnd.openxmlformats-officedocument.wordprocessingml.document";
     Client.dataURL := Ok (js "data:application/octet-stream;base64,UEsDBA==");
     Client.pdf := notThis; Client.docx := Ok (js "An answer in prose.");
     Client.zip := Ok [] |}.

Definition scan : Client.File :=
  {| Client.name := js "scan.pdf"; Client.type := js "application/pdf";
     Client.dataURL := Ok (js "data:application/pdf;base64,JVBERi0=");
     Client.pdf := Ok (Documents.onePage 40);
     Client.docx := notThis; Client.zip := notThis |}.

Definition slides : Client.File :=
  {| Client.name := js "talk.pptx";
     Client.type :=
       js "application/vnd.openxmlformats-officedocument.presentationml.presentation";
     Client.dataURL := Ok (js "data:application/octet-stream;base64,UEsDBA==");
     Client.pdf := notThis; Client.docx := notThis;
     Client.zip := Ok Documents.deck |}.

(** A PDF by its type whose name has no extension. *)
Definition untitled : Client.File :=
  {| Client.name := js "untitled"; Client.type := js "application/pdf";
     Client.dataURL := Ok (js "data:application/pdf;base64,JVBERi0=");
     Client.pdf := Ok (Documents.onePage 600);
     Client.docx := notThis; Client.zip := notThis |}.

(** An upstream model that rejects every request. *)
Definition rejecting (request : value) : result value :=
  Throw (Fixture.message (js "429 Rate limit reached")).

(** A request body with twenty images. *)
Definition bodyManyImages : value :=
  VObj [(js "question", VStr (js "Discuss X")); (js "maxMarks", VNum (num 10));
        (js "images",
         VArr (repeat (VObj [(js "mime", VStr (js "image/jpeg"));
                             (js "dataUrl", VStr (js "data:image/jpeg;base64,/9j/"))])
                      20))].

End Desk.

(** More answers of the handler, and measures of a request. *)
Module Measures.
Import JS.

Definition notAllowed : Response :=
  {| statusCode := 405; headers := []; body := VStr (js "Method not allowed") |}.

Definition keyMissing : Response :=
  {| statusCode := 500; headers := [];
     body := VStr (js "OPENAI_API_KEY is not set") |}.

(** An element of the user message that carries an image. *)
Definition isImagePart (part : value) : bool :=
  match prop part (js "type") with
  | VStr t => str_eqb t (js "image_url")
  | _ => false
  end.

(** An event with another method. *)
Definition getEvent : Part000.Event :=
  {| Part000.httpMethod := js "GET"; Part000.eventBody := VNull |}.

(** A POST whose body is not JSON. *)
Definition garbledEvent : Part000.Event :=
  {| Part000.httpMethod := js "POST"; Part000.eventBody := VStr (js "question=X") |}.

(** A POST whose body is the JSON text [null]. *)
Definition nullEvent : Part000.Event :=
  {| Part000.httpMethod := js "POST"; Part000.eventBody := VStr (js "null") |}.

End Measures.


(* ================================================================== *)
(** * Properties *)
(* ================================================================== *)

Module NumberFacts.
Import JS.

Lemma Qlt_bool_iff (p q : Q) : Qlt_bool p q = true <-> (p < q)%Q.
Proof.
  unfold Qlt_bool. rewrite negb_true_iff. split; intro H.
  - apply Qnot_le_lt. intro L. apply Qle_bool_iff in L. congruence.
  - destruct (Qle_bool q p) eqn:E; [|reflexivity].
    apply Qle_bool_iff in E. lra.
Qed.

Lemma Qlt_bool_false_iff (p q : Q) : Qlt_bool p q = false <-> (q <= p)%Q.
Proof.
  unfold Qlt_bool. rewrite negb_false_iff. apply Qle_bool_iff.
Qed.

Lemma num_eq_refl (a : number) : num_eq a a.
Proof. destruct a; simpl; auto. reflexivity. Qed.

Lemma num_eq_sym (a b : number) : num_eq a b -> num_eq b a.
Proof. destruct a, b; simpl; auto. intro H. symmetry. exact H. Qed.

Lemma num_eq_trans (a b c : number) : num_eq a b -> num_eq b c -> num_eq a c.
Proof.
  destruct a, b, c; simpl; auto; try contradiction.
  intros H1 H2. rewrite H1. exact H2.
Qed.

(** The clamping arithmetic on a number that is not [NaN]. *)
Lemma clamp_below (n : number) :
  num_ltb n (num 0) = true ->
  Math_max (num 0) (Math_min (num 100) n) = num 0.
Proof.
  destruct n as [| | |q]; simpl; try discriminate; try reflexivity.
  intro H. apply Qlt_bool_iff in H.
  assert (L : Qlt_bool q (inject_Z 100) = true)
    by (apply Qlt_bool_iff; unfold inject_Z in *; lra).
  rewrite L. simpl.
  assert (G : Qlt_bool (inject_Z 0) q = false)
    by (apply Qlt_bool_false_iff; unfold inject_Z in *; lra).
  rewrite G. reflexivity.
Qed.

Lemma clamp_above (n : number) :
  num_ltb (num 100) n = true ->
  Math_max (num 0) (Math_min (num 100) n) = num 100.
Proof.
  destruct n as [| | |q]; simpl; try discriminate; try reflexivity.
  intro H. apply Qlt_bool_iff in H.
  assert (L : Qlt_bool q (inject_Z 100) = false)
    by (apply Qlt_bool_false_iff; unfold inject_Z in *; lra).
  rewrite L. reflexivity.
Qed.

Lemma clamp_inside (n : number) :
  isNaN n = false -> num_ltb n (num 0) = false -> num_ltb (num 100) n = false ->
  num_eq (Math_max (num 0) (Math_min (num 100) n)) n.
Proof.
  destruct n as [| | |q]; simpl; try discriminate.
  intros _ H0 H100.
  apply Qlt_bool_false_iff in H0. apply Qlt_bool_false_iff in H100.
  destruct (Qlt_bool q (inject_Z 100)) eqn:L; simpl.
  - destruct (Qlt_bool (inject_Z 0) q) eqn:G; simpl; [reflexivity|].
    apply Qlt_bool_false_iff in G. unfold inject_Z in *. lra.
  - apply Qlt_bool_false_iff in L. unfold inject_Z in *. lra.
Qed.

End NumberFacts.

(* ================================================================== *)
(** ** Rounding to binary64 *)
(* ================================================================== *)

Module RoundingFacts.
Import JS.

(** From a comparison to the order. *)
Ltac compared H :=
  first [apply Qeq_alt in H | apply Qlt_alt in H | apply Qgt_alt in H].

Lemma two_nonzero : ~ (2 == 0)%Q.
Proof. intro H. discriminate H. Qed.

Lemma pow2_pos (k : Z) : (0 < pow2 k)%Q.
Proof. apply Qpower_0_lt. reflexivity. Qed.

Lemma pow2_le (a b : Z) : a <= b -> (pow2 a <= pow2 b)%Q.
Proof. intro H. apply Qpower_le_compat_l; [exact H|discriminate]. Qed.

Lemma pow2_lt (a b : Z) : a < b -> (pow2 a < pow2 b)%Q.
Proof. intro H. apply Qpower_lt_compat_l; [exact H|reflexivity]. Qed.

Lemma pow2_plus (a b : Z) : (pow2 (a + b) == pow2 a * pow2 b)%Q.
Proof. apply Qpower_plus, two_nonzero. Qed.

Lemma pow2_cancel (e : Z) : (pow2 (- e) * pow2 e == 1)%Q.
Proof. rewrite <- pow2_plus. replace (- e + e) with 0 by lia. reflexivity. Qed.

Lemma pow2_Z (k : Z) : 0 <= k -> (pow2 k == inject_Z (2 ^ k))%Q.
Proof. intro H. unfold pow2. rewrite Zpower_Qpower by exact H. reflexivity. Qed.

Lemma Qpos_num (x : Q) : (0 < x)%Q -> 0 < Qnum x.
Proof. unfold Qlt. simpl. lia. Qed.

Lemma Q_as_fraction (x : Q) :
  (x * inject_Z (Z.pos (Qden x)) == inject_Z (Qnum x))%Q.
Proof. destruct x as [n d]. unfold Qeq, Qmult, inject_Z. simpl. lia. Qed.

(** The estimate from the bit lengths is off by at most one. *)
Lemma ilog2_estimate (x : Q) :
  (0 < x)%Q ->
  let k := Z.log2 (Qnum x) - Z.log2 (Z.pos (Qden x)) in
  (pow2 (k - 1) <= x)%Q /\ (x < pow2 (k + 1))%Q.
Proof.
  intro Hx. cbv zeta.
  pose proof (Qpos_num x Hx) as Hn.
  set (n := Qnum x) in *. set (d := Z.pos (Qden x)).
  assert (Hd : 0 < d) by (unfold d; lia).
  pose proof (Z.log2_spec n Hn) as [Na Nb].
  pose proof (Z.log2_spec d Hd) as [Da Db].
  pose proof (Z.log2_nonneg n) as An. pose proof (Z.log2_nonneg d) as Ad.
  set (a := Z.log2 n) in *. set (b := Z.log2 d) in *.
  pose proof (Q_as_fraction x) as F. fold n d in F.
  assert (Dq : (0 < inject_Z d)%Q).
  { change 0%Q with (inject_Z 0). rewrite <- Zlt_Qlt. exact Hd. }
  assert (Na' : (pow2 a <= inject_Z n)%Q).
  { rewrite pow2_Z by lia. rewrite <- Zle_Qle. exact Na. }
  assert (Nb' : (inject_Z n < pow2 (a + 1))%Q).
  { rewrite pow2_Z by lia. rewrite <- Zlt_Qlt. replace (a + 1) with (Z.succ a) by lia. exact Nb. }
  assert (Da' : (pow2 b <= inject_Z d)%Q).
  { rewrite pow2_Z by lia. rewrite <- Zle_Qle. exact Da. }
  assert (Db' : (inject_Z d < pow2 (b + 1))%Q).
  { rewrite pow2_Z by lia. rewrite <- Zlt_Qlt. replace (b + 1) with (Z.succ b) by lia. exact Db. }
  pose proof (pow2_pos (a - b - 1)) as P1. pose proof (pow2_pos (a - b + 1)) as P2.
  pose proof (pow2_pos b) as Pb. pose proof (pow2_pos (b + 1)) as Pb1.
  assert (E1 : (pow2 (a - b - 1) * pow2 (b + 1) == pow2 a)%Q).
  { rewrite <- pow2_plus. replace (a - b - 1 + (b + 1)) with a by lia. reflexivity. }
  assert (E2 : (pow2 (a - b + 1) * pow2 b == pow2 (a + 1))%Q).
  { rewrite <- pow2_plus. replace (a - b + 1 + b) with (a + 1) by lia. reflexivity. }
  split.
  - apply Qnot_lt_le. intro C.
    assert (X : (x * inject_Z d < pow2 (a - b - 1) * pow2 (b + 1))%Q) by nra.
    rewrite F, E1 in X. lra.
  - apply Qnot_le_lt. intro C.
    assert (X : (pow2 (a - b + 1) * pow2 b <= x * inject_Z d)%Q) by nra.
    rewrite F, E2 in X. lra.
Qed.

Lemma ilog2_spec (x : Q) :
  (0 < x)%Q -> (pow2 (ilog2 x) <= x)%Q /\ (x < pow2 (ilog2 x + 1))%Q.
Proof.
  intro Hx. destruct (ilog2_estimate x Hx) as [Lo Hi]. unfold ilog2.
  set (k := Z.log2 (Qnum x) - Z.log2 (Z.pos (Qden x))) in *.
  destruct (Qle_bool (pow2 k) x) eqn:E.
  - apply Qle_bool_iff in E. split; assumption.
  - split; [exact Lo|]. replace (k - 1 + 1) with k by lia.
    apply Qnot_le_lt. intro C. apply Qle_bool_iff in C. congruence.
Qed.

Lemma ilog2_unique (x : Q) (k : Z) :
  (pow2 k <= x)%Q -> (x < pow2 (k + 1))%Q -> ilog2 x = k.
Proof.
  intros Lo Hi.
  assert (Hx : (0 < x)%Q) by (pose proof (pow2_pos k); lra).
  destruct (ilog2_spec x Hx) as [Lo' Hi'].
  destruct (Z.lt_trichotomy (ilog2 x) k) as [C|[C|C]]; [|exact C|].
  - pose proof (pow2_le (ilog2 x + 1) k ltac:(lia)). lra.
  - pose proof (pow2_le (k + 1) (ilog2 x) ltac:(lia)). lra.
Qed.

Lemma ilog2_mono (x y : Q) : (0 < x)%Q -> (x <= y)%Q -> ilog2 x <= ilog2 y.
Proof.
  intros Hx Hxy. assert (Hy : (0 < y)%Q) by lra.
  destruct (ilog2_spec x Hx) as [Lx _]. destruct (ilog2_spec y Hy) as [_ Hy'].
  destruct (Z_le_gt_dec (ilog2 x) (ilog2 y)) as [C|C]; [exact C|].
  pose proof (pow2_le (ilog2 y + 1) (ilog2 x) ltac:(lia)). lra.
Qed.

Lemma ilog2_comp (x y : Q) : (0 < x)%Q -> (x == y)%Q -> ilog2 x = ilog2 y.
Proof.
  intros Hx E. assert (Hy : (0 < y)%Q) by (rewrite <- E; exact Hx).
  destruct (ilog2_spec y Hy) as [Lo Hi].
  apply ilog2_unique; rewrite E; assumption.
Qed.

(** ** Rounding to the nearest integer *)

Lemma nearestEven_cases (x : Q) :
  let f := Qfloor x in
  (nearestEven x = f /\ (x - inject_Z f <= 1 # 2)%Q)
  \/ (nearestEven x = f + 1 /\ (1 # 2 <= x - inject_Z f)%Q).
Proof.
  cbv zeta. unfold nearestEven.
  destruct (Qcompare (x - inject_Z (Qfloor x)) (1 # 2)%Q) eqn:C.
  - apply Qeq_alt in C. destruct (Z.even (Qfloor x)); [left|right]; split;
      try reflexivity; lra.
  - apply Qlt_alt in C. left. split; [reflexivity|lra].
  - apply Qgt_alt in C. right. split; [reflexivity|lra].
Qed.

Lemma nearestEven_comp (x y : Q) : (x == y)%Q -> nearestEven x = nearestEven y.
Proof.
  intro E. unfold nearestEven. rewrite (Qfloor_comp x y E).
  assert (E' : (x - inject_Z (Qfloor y) == y - inject_Z (Qfloor y))%Q)
    by (rewrite E; reflexivity).
  rewrite (Qcompare_comp _ _ E' (1 # 2)%Q (1 # 2)%Q (Qeq_refl _)). reflexivity.
Qed.

Lemma nearestEven_Z (z : Z) : nearestEven (inject_Z z) = z.
Proof.
  unfold nearestEven. rewrite Qfloor_Z.
  assert (E : (inject_Z z - inject_Z z == 0)%Q) by ring.
  rewrite (Qcompare_comp _ _ E (1 # 2)%Q (1 # 2)%Q (Qeq_refl _)). reflexivity.
Qed.

Lemma nearestEven_mono (x y : Q) : (x <= y)%Q -> nearestEven x <= nearestEven y.
Proof.
  intro H. pose proof (Qfloor_resp_le x y H) as F.
  pose proof (Qfloor_le x) as Lx. pose proof (Qlt_floor x) as Ux.
  pose proof (Qfloor_le y) as Ly. pose proof (Qlt_floor y) as Uy.
  destruct (Z.eq_dec (Qfloor x) (Qfloor y)) as [E|N].
  - unfold nearestEven. rewrite E.
    destruct (Qcompare (x - inject_Z (Qfloor y)) (1 # 2)%Q) eqn:Cx;
      destruct (Qcompare (y - inject_Z (Qfloor y)) (1 # 2)%Q) eqn:Cy;
      try (destruct (Z.even (Qfloor y))); try lia;
      compared Cx; compared Cy; exfalso; lra.
  - destruct (nearestEven_cases x) as [[-> _]|[-> _]];
      destruct (nearestEven_cases y) as [[-> _]|[-> _]]; lia.
Qed.

Lemma nearestEven_ge (x : Q) (a : Z) : (inject_Z a <= x)%Q -> a <= nearestEven x.
Proof. intro H. rewrite <- (nearestEven_Z a). apply nearestEven_mono, H. Qed.

Lemma nearestEven_le (x : Q) (b : Z) : (x <= inject_Z b)%Q -> nearestEven x <= b.
Proof. intro H. rewrite <- (nearestEven_Z b). apply nearestEven_mono, H. Qed.

(** ** Rounding to 53 bits *)

Lemma lastPlace_mono (x y : Q) : (0 < x)%Q -> (x <= y)%Q -> lastPlace x <= lastPlace y.
Proof. intros Hx H. unfold lastPlace. pose proof (ilog2_mono x y Hx H). lia. Qed.

Lemma nearest_nonneg (x : Q) : (0 < x)%Q -> (0 <= nearest x)%Q.
Proof.
  intro Hx. unfold nearest.
  pose proof (pow2_pos (lastPlace x)) as P.
  pose proof (pow2_pos (- lastPlace x)) as P'.
  assert (N : 0 <= nearestEven (x * pow2 (- lastPlace x))).
  { apply nearestEven_ge. change (inject_Z 0) with 0%Q. nra. }
  assert (N' : (0 <= inject_Z (nearestEven (x * pow2 (- lastPlace x))))%Q).
  { change 0%Q with (inject_Z 0). rewrite <- Zle_Qle. exact N. }
  nra.
Qed.

(** The scaled value has at most 53 bits before the point, and exactly 53
    when the last place is above the smallest one. *)
Lemma scaled_upper (x : Q) :
  (0 < x)%Q -> (x * pow2 (- lastPlace x) < pow2 53)%Q.
Proof.
  intro Hx. destruct (ilog2_spec x Hx) as [_ Hi].
  pose proof (pow2_le (ilog2 x + 1) (lastPlace x + 53)
                ltac:(unfold lastPlace; lia)) as L.
  pose proof (pow2_plus (lastPlace x + 53) (- lastPlace x)) as E.
  replace (lastPlace x + 53 + - lastPlace x) with 53 in E by lia.
  pose proof (pow2_pos (- lastPlace x)). rewrite E. nra.
Qed.

Lemma scaled_lower (x : Q) :
  (0 < x)%Q -> -1074 < lastPlace x -> (pow2 52 <= x * pow2 (- lastPlace x))%Q.
Proof.
  intros Hx He. destruct (ilog2_spec x Hx) as [Lo _].
  assert (El : ilog2 x = lastPlace x + 52) by (unfold lastPlace in *; lia).
  rewrite El in Lo.
  pose proof (pow2_plus (lastPlace x + 52) (- lastPlace x)) as E.
  replace (lastPlace x + 52 + - lastPlace x) with 52 in E by lia.
  pose proof (pow2_pos (- lastPlace x)). rewrite E. nra.
Qed.

Lemma nearest_mono (x y : Q) :
  (0 < x)%Q -> (x <= y)%Q -> (nearest x <= nearest y)%Q.
Proof.
  intros Hx H. assert (Hy : (0 < y)%Q) by lra.
  pose proof (lastPlace_mono x y Hx H) as He. unfold nearest.
  set (ex := lastPlace x) in *. set (ey := lastPlace y) in *.
  pose proof (pow2_pos ex) as Px. pose proof (pow2_pos ey) as Py.
  destruct (Z.eq_dec ex ey) as [E|N].
  - rewrite E. pose proof (pow2_pos (- ey)) as P'.
    assert (M : nearestEven (x * pow2 (- ey)) <= nearestEven (y * pow2 (- ey))).
    { apply nearestEven_mono. nra. }
    rewrite Zle_Qle in M. nra.
  - assert (U : nearestEven (x * pow2 (- ex)) <= 2 ^ 53).
    { apply nearestEven_le. rewrite <- pow2_Z by lia.
      apply Qlt_le_weak, scaled_upper, Hx. }
    assert (L : 2 ^ 52 <= nearestEven (y * pow2 (- ey))).
    { apply nearestEven_ge. rewrite <- pow2_Z by lia.
      apply scaled_lower; [exact Hy|]. unfold ey, ex, lastPlace in *. lia. }
    rewrite Zle_Qle in U, L. rewrite <- !pow2_Z in U, L by lia.
    pose proof (pow2_plus 53 ex) as A. pose proof (pow2_plus 52 ey) as C.
    pose proof (pow2_le (53 + ex) (52 + ey) ltac:(lia)) as D.
    pose proof (pow2_pos 53). pose proof (pow2_pos 52).
    apply Qle_trans with (pow2 (53 + ex)); [rewrite A; nra|].
    apply Qle_trans with (pow2 (52 + ey)); [exact D|rewrite C; nra].
Qed.

Lemma nearest_comp (x y : Q) : (0 < x)%Q -> (x == y)%Q -> (nearest x == nearest y)%Q.
Proof.
  intros Hx E. unfold nearest, lastPlace. rewrite (ilog2_comp x y Hx E).
  set (e := Z.max (ilog2 y - 52) (-1074)).
  rewrite (nearestEven_comp (x * pow2 (- e)) (y * pow2 (- e))); [reflexivity|].
  rewrite E. reflexivity.
Qed.

(** ** binary64 *)

Theorem binary64_comp (x y : Q) : (x == y)%Q -> binary64 x = binary64 y.
Proof.
  intro E. unfold binary64.
  rewrite (Qcompare_comp x y E 0%Q 0%Q (Qeq_refl _)).
  destruct (Qcompare y 0) eqn:C; [reflexivity| |].
  - apply Qlt_alt in C.
    assert (N : (nearest (- x) == nearest (- y))%Q).
    { apply nearest_comp; [rewrite E; lra|rewrite E; reflexivity]. }
    cbv zeta.
    assert (B : Qle_bool (pow2 1024) (nearest (- x))
                = Qle_bool (pow2 1024) (nearest (- y))).
    { destruct (Qle_bool (pow2 1024) (nearest (- x))) eqn:A;
        destruct (Qle_bool (pow2 1024) (nearest (- y))) eqn:A'; try reflexivity.
      - apply Qle_bool_iff in A. rewrite N in A. apply Qle_bool_iff in A. congruence.
      - apply Qle_bool_iff in A'. rewrite <- N in A'. apply Qle_bool_iff in A'.
        congruence. }
    rewrite B. clear B.
    destruct (Qle_bool (pow2 1024) (nearest (- y))); [reflexivity|].
    f_equal. apply Qred_complete. rewrite N. reflexivity.
  - apply Qgt_alt in C.
    assert (N : (nearest x == nearest y)%Q).
    { apply nearest_comp; [rewrite E; lra|exact E]. }
    cbv zeta.
    assert (B : Qle_bool (pow2 1024) (nearest x) = Qle_bool (pow2 1024) (nearest y)).
    { destruct (Qle_bool (pow2 1024) (nearest x)) eqn:A;
        destruct (Qle_bool (pow2 1024) (nearest y)) eqn:A'; try reflexivity.
      - apply Qle_bool_iff in A. rewrite N in A. apply Qle_bool_iff in A. congruence.
      - apply Qle_bool_iff in A'. rewrite <- N in A'. apply Qle_bool_iff in A'.
        congruence. }
    rewrite B. clear B.
    destruct (Qle_bool (pow2 1024) (nearest y)); [reflexivity|].
    f_equal. apply Qred_complete. exact N.
Qed.

Theorem binary64_mono (x y : Q) :
  (x <= y)%Q -> num_leb (binary64 x) (binary64 y) = true.
Proof.
  intro H. unfold binary64.
  destruct (Qcompare x 0) eqn:Cx; destruct (Qcompare y 0) eqn:Cy;
    compared Cx; compared Cy; try (exfalso; lra); cbv zeta.
  - reflexivity.
  - pose proof (nearest_nonneg y Cy) as Ny.
    destruct (Qle_bool (pow2 1024) (nearest y)); [reflexivity|].
    cbn [num_leb]. apply Qle_bool_iff. rewrite Qred_correct. exact Ny.
  - assert (Hx : (0 < - x)%Q) by lra. pose proof (nearest_nonneg (- x) Hx) as Nx.
    destruct (Qle_bool (pow2 1024) (nearest (- x))); [reflexivity|].
    cbn [num_leb]. apply Qle_bool_iff. rewrite Qred_correct. lra.
  - assert (Hy : (0 < - y)%Q) by lra. assert (Hyx : (- y <= - x)%Q) by lra.
    pose proof (nearest_mono (- y) (- x) Hy Hyx) as M.
    destruct (Qle_bool (pow2 1024) (nearest (- x))) eqn:Bx;
      [destruct (Qle_bool (pow2 1024) (nearest (- y))); reflexivity|].
    destruct (Qle_bool (pow2 1024) (nearest (- y))) eqn:By_.
    + apply Qle_bool_iff in By_.
      assert (X : Qle_bool (pow2 1024) (nearest (- x)) = true)
        by (apply Qle_bool_iff; lra).
      congruence.
    + cbn [num_leb]. apply Qle_bool_iff. rewrite !Qred_correct. lra.
  - assert (Hx : (0 < - x)%Q) by lra. pose proof (nearest_nonneg (- x) Hx) as Nx.
    pose proof (nearest_nonneg y Cy) as Ny.
    destruct (Qle_bool (pow2 1024) (nearest (- x)));
      destruct (Qle_bool (pow2 1024) (nearest y)); try reflexivity.
    cbn [num_leb]. apply Qle_bool_iff. rewrite !Qred_correct. lra.
  - pose proof (nearest_mono x y Cx H) as M.
    destruct (Qle_bool (pow2 1024) (nearest y)) eqn:By_.
    + destruct (Qle_bool (pow2 1024) (nearest x)); reflexivity.
    + destruct (Qle_bool (pow2 1024) (nearest x)) eqn:Bx.
      * apply Qle_bool_iff in Bx.
        assert (X : Qle_bool (pow2 1024) (nearest y) = true)
          by (apply Qle_bool_iff; lra).
        congruence.
      * cbn [num_leb]. apply Qle_bool_iff. rewrite !Qred_correct. exact M.
Qed.

Lemma Qred_whole (z : Z) : Qred (inject_Z z) = inject_Z z.
Proof.
  unfold Qred, inject_Z. cbn [Qnum Qden].
  pose proof (Z.ggcd_gcd z 1) as G.
  pose proof (Z.ggcd_correct_divisors z 1) as D.
  destruct (Z.ggcd z 1) as (g, (r1, r2)). cbn [fst snd] in *.
  rewrite Z.gcd_1_r in G. subst g. destruct D as [D1 D2].
  replace r1 with z by lia. replace r2 with 1 by lia. reflexivity.
Qed.

(** Whole numbers below [2^53] are binary64 numbers. *)
Theorem binary64_whole (z : Z) :
  0 <= z < 2 ^ 53 -> binary64 (inject_Z z) = num z.
Proof.
  intros [Z0 Z53]. destruct (Z.eq_dec z 0) as [->|Nz]; [reflexivity|].
  assert (Hz : 0 < z) by lia.
  assert (Hq : (0 < inject_Z z)%Q).
  { change 0%Q with (inject_Z 0). rewrite <- Zlt_Qlt. exact Hz. }
  unfold binary64. rewrite (proj1 (Qgt_alt _ _) Hq). cbv zeta.
  pose proof (Z.log2_spec z Hz) as [La Lb]. pose proof (Z.log2_nonneg z) as L0.
  assert (L52 : Z.log2 z <= 52).
  { destruct (Z_le_gt_dec (Z.log2 z) 52) as [C|C]; [exact C|].
    pose proof (Z.pow_le_mono_r 2 53 (Z.log2 z) ltac:(lia) ltac:(lia)). lia. }
  assert (I : ilog2 (inject_Z z) = Z.log2 z).
  { apply ilog2_unique.
    - rewrite pow2_Z by lia. rewrite <- Zle_Qle. exact La.
    - rewrite pow2_Z by lia. rewrite <- Zlt_Qlt.
      replace (Z.log2 z + 1) with (Z.succ (Z.log2 z)) by lia. exact Lb. }
  assert (E : lastPlace (inject_Z z) = Z.log2 z - 52)
    by (unfold lastPlace; rewrite I; lia).
  assert (N : (nearest (inject_Z z) == inject_Z z)%Q).
  { unfold nearest. rewrite E.
    set (s := 52 - Z.log2 z).
    replace (- (Z.log2 z - 52)) with s by (unfold s; lia).
    replace (Z.log2 z - 52) with (- s) by (unfold s; lia).
    assert (S0 : 0 <= s) by (unfold s; lia).
    rewrite (nearestEven_comp (inject_Z z * pow2 s) (inject_Z (z * 2 ^ s))).
    - rewrite nearestEven_Z. rewrite inject_Z_mult, <- pow2_Z by exact S0.
      rewrite <- Qmult_assoc. rewrite (Qmult_comm (pow2 s)), pow2_cancel. ring.
    - rewrite inject_Z_mult, <- pow2_Z by exact S0. reflexivity. }
  assert (B : Qle_bool (pow2 1024) (nearest (inject_Z z)) = false).
  { destruct (Qle_bool (pow2 1024) (nearest (inject_Z z))) eqn:A; [|reflexivity].
    apply Qle_bool_iff in A. rewrite N in A.
    pose proof (pow2_le 53 1024 ltac:(lia)) as P.
    rewrite (pow2_Z 53) in P by lia. rewrite Zlt_Qlt in Z53. lra. }
  rewrite B. unfold num. f_equal.
  rewrite (Qred_complete _ _ N). apply Qred_whole.
Qed.

End RoundingFacts.

(* ================================================================== *)
(** ** The clamp helpers *)
(* ================================================================== *)

Module ClampFacts.
Import JS NumberFacts Spec.
Local Open Scope js_scope.

Section Clamp.
Context {B : Builtins}.

Lemma clamp_same (v : value) (lo hi : number) :
  Part000.clamp v lo hi = Evaluate.clampNumber v lo hi.
Proof. reflexivity. Qed.

(** A value that has a string has a number. *)
Lemma ToString_ToNumber (v : value) (s : jsstring) :
  ToString v = Ok s -> exists n, ToNumber v = Ok n.
Proof.
  intro H. destruct v as [| |[|]| | | |]; try (eexists; reflexivity);
    unfold ToNumber; rewrite H; eexists; reflexivity.
Qed.

(** C2, as amended: [clampNumber(x, 0, 100)] and [clamp(x, 0, 100)] first
    coerce [x] with [Number(x)]; writing [n] for the coerced number, they
    return 0 when [n] is [NaN] or [n < 0], 100 when [n > 100], and [n]
    itself otherwise.  A number is its own coercion, and where the
    coercion throws the helpers throw. *)
Theorem clamp_coerced (x : value) :
  Part000.clamp x (num 0) (num 100) = Evaluate.clampNumber x (num 0) (num 100)
  /\ (forall n, ToNumber x = Ok n ->
      exists c,
        Evaluate.clampNumber x (num 0) (num 100) = Ok c
        /\ (isNaN n = true -> c = num 0)
        /\ (num_ltb n (num 0) = true -> c = num 0)
        /\ (num_ltb (num 100) n = true -> c = num 100)
        /\ (isNaN n = false -> num_ltb n (num 0) = false ->
            num_ltb (num 100) n = false -> num_eq c n))
  /\ (forall e, ToNumber x = Throw e ->
      Evaluate.clampNumber x (num 0) (num 100) = Throw e)
  /\ (forall m, x = VNum m -> ToNumber x = Ok m).
Proof.
  split; [reflexivity|]. unfold Evaluate.clampNumber, rbind.
  split; [|split].
  - intros n Hn. rewrite Hn.
    destruct (isNaN n) eqn:E.
    + exists (num 0). split; [reflexivity|]. split; [reflexivity|].
      split; [reflexivity|]. split; [|discriminate].
      destruct n; discriminate.
    + eexists. split; [reflexivity|]. split; [discriminate|].
      split; [apply clamp_below|]. split; [apply clamp_above|].
      intros _. apply clamp_inside. exact E.
  - intros e He. rewrite He. reflexivity.
  - intros m ->. reflexivity.
Qed.

End Clamp.

(** An object that carries its own [toString] has no number: the helpers
    throw on it. *)
Example clamp_throws_on_own_toString :
  Evaluate.clampNumber (B := Fixture.engine)
    (VObj [(js "toString", VNum (num 1))]) (num 0) (num 100)
  = Throw (Fixture.message (js "TypeError: toString")).
Proof. reflexivity. Qed.

(** C2, as stated, fails: [true] is not a number, and [clamp(true, 0, 100)]
    is 1, not 0. *)
Lemma clamp_true_is_one :
  isNumeric (VBool true) = false
  /\ Evaluate.clampNumber (B := Fixture.engine) (VBool true) (num 0) (num 100)
     = Ok (num 1)
  /\ Part000.clamp (B := Fixture.engine) (VBool true) (num 0) (num 100)
     = Ok (num 1)
  /\ ~ num_eq (num 1) (num 0).
Proof.
  repeat split; try reflexivity.
  simpl. unfold Qeq. simpl. discriminate.
Qed.

End ClampFacts.

(* ================================================================== *)
(** ** Scaling the raw score *)
(* ================================================================== *)

Module ScaleFacts.
Import JS NumberFacts RoundingFacts.

(** The clamped raw score is a finite number between 0 and 100. *)
Lemma clampNumber_range {B : Builtins} (x : value) (c : number) :
  Evaluate.clampNumber x (num 0) (num 100) = Ok c ->
  exists q, c = Fin q /\ (0 <= q)%Q /\ (q <= 100)%Q.
Proof.
  unfold Evaluate.clampNumber, rbind.
  destruct (ToNumber x) as [[| | |q]|e]; simpl; try discriminate;
    intro H; injection H as <-.
  - exists (inject_Z 0). split; [reflexivity|]. unfold inject_Z. lra.
  - exists (inject_Z 100). split; [reflexivity|]. unfold inject_Z. lra.
  - exists (inject_Z 0). split; [reflexivity|]. unfold inject_Z. lra.
  - destruct (Qlt_bool q (inject_Z 100)) eqn:L; simpl.
    + destruct (Qlt_bool (inject_Z 0) q) eqn:G.
      * exists q. split; [reflexivity|].
        apply Qlt_bool_iff in L. apply Qlt_bool_iff in G.
        unfold inject_Z in *. lra.
      * exists (inject_Z 0). split; [reflexivity|]. unfold inject_Z. lra.
    + exists (inject_Z 100). split; [reflexivity|]. unfold inject_Z. lra.
Qed.

(** Whenever the raw score has a number, the clamp returns. *)
Lemma clampNumber_defined {B : Builtins} (x : value) (n : number) :
  ToNumber x = Ok n -> exists c, Evaluate.clampNumber x (num 0) (num 100) = Ok c.
Proof.
  intro H. unfold Evaluate.clampNumber, rbind. rewrite H.
  destruct (isNaN n); eexists; reflexivity.
Qed.

(** A number between two finite numbers is finite. *)
Lemma between_finite (a b : Q) (x : number) :
  num_leb (Fin a) x = true -> num_leb x (Fin b) = true ->
  exists t, x = Fin t /\ (a <= t)%Q /\ (t <= b)%Q.
Proof.
  destruct x as [| | |t]; simpl; try discriminate.
  intros Ha Hb. apply Qle_bool_iff in Ha. apply Qle_bool_iff in Hb.
  exists t. split; [reflexivity|]. split; assumption.
Qed.

(** A rounded result lies between the binary64 numbers around the exact
    one. *)
Lemma binary64_between (a b x : Q) :
  binary64 a = Fin a -> binary64 b = Fin b -> (a <= x)%Q -> (x <= b)%Q ->
  exists t, binary64 x = Fin t /\ (a <= t)%Q /\ (t <= b)%Q.
Proof.
  intros Ha Hb Hax Hxb. apply between_finite.
  - rewrite <- Ha. apply binary64_mono, Hax.
  - rewrite <- Hb. apply binary64_mono, Hxb.
Qed.

Lemma binary64_zero : binary64 0 = Fin 0.
Proof. reflexivity. Qed.

Lemma binary64_one : binary64 1 = Fin 1.
Proof. vm_compute. reflexivity. Qed.

(** The quotient of a clamped score by 100 lies between 0 and 1. *)
Lemma fdiv_share (q : Q) :
  (0 <= q)%Q -> (q <= 100)%Q ->
  exists r, fdiv (Fin q) (num 100) = Fin r /\ (0 <= r)%Q /\ (r <= 1)%Q.
Proof.
  intros H0 H100.
  change (fdiv (Fin q) (num 100)) with (binary64 (Qdiv q (inject_Z 100))).
  assert (D : (Qdiv q (inject_Z 100) == q * (1 # 100))%Q)
    by (unfold Qdiv; reflexivity).
  apply binary64_between; [exact binary64_zero|exact binary64_one| |];
    rewrite D; lra.
Qed.

(** The product of a share by marks that are a binary64 number does not
    exceed the marks. *)
Lemma fmul_share (r m : Q) :
  (0 <= r)%Q -> (r <= 1)%Q -> (0 <= m)%Q -> binary64 m = Fin m ->
  exists t, fmul (Fin r) (Fin m) = Fin t /\ (0 <= t)%Q /\ (t <= m)%Q.
Proof.
  intros H0 H1 Hm Hb.
  change (fmul (Fin r) (Fin m)) with (binary64 (Qmult r m)).
  apply binary64_between; [exact binary64_zero|exact Hb| |]; nra.
Qed.

Lemma Math_round_within (t : Q) (m : Z) :
  (0 <= t)%Q -> (t <= inject_Z m)%Q ->
  exists k, Math_round (Fin t) = num k /\ 0 <= k <= m.
Proof.
  intros H0 Hm. eexists. split; [reflexivity|].
  set (x := Qplus t (1 # 2)).
  split.
  - change 0 with (Qfloor (inject_Z 0)). apply Qfloor_resp_le.
    unfold x. change (inject_Z 0) with 0%Q. lra.
  - assert (F := Qfloor_le x).
    assert (K : (inject_Z (Qfloor x) < inject_Z (m + 1))%Q).
    { rewrite inject_Z_plus. change (inject_Z 1) with 1%Q. unfold x in *. lra. }
    rewrite <- Zlt_Qlt in K. lia.
Qed.

(** Where the bound of the spec holds: a whole number of marks. *)
Lemma scaled_within_whole_marks (q : Q) (m : Z) :
  (0 <= q)%Q -> (q <= 100)%Q -> 0 <= m -> binary64 (inject_Z m) = num m ->
  exists k, Part000.scaled (Fin q) (num m) = num k /\ 0 <= k <= m.
Proof.
  intros H0 H100 Hm Hb. unfold Part000.scaled.
  destruct (fdiv_share q H0 H100) as (r & -> & R0 & R1).
  assert (Mq : (0 <= inject_Z m)%Q).
  { change 0%Q with (inject_Z 0). rewrite <- Zle_Qle. exact Hm. }
  destruct (fmul_share r (inject_Z m) R0 R1 Mq Hb) as (t & E & T0 & Tm).
  unfold num at 1. rewrite E. apply Math_round_within; assumption.
Qed.

(** The total grows with the raw score. *)
Lemma scaled_monotone (c c' m : Q) :
  (0 <= c)%Q -> (c <= c')%Q -> (c' <= 100)%Q -> (0 <= m)%Q ->
  binary64 m = Fin m ->
  exists k k', Part000.scaled (Fin c) (Fin m) = num k
               /\ Part000.scaled (Fin c') (Fin m) = num k' /\ k <= k'.
Proof.
  intros H0 Hcc H100 Hm Hb. unfold Part000.scaled.
  assert (D : forall a, (Qdiv a (inject_Z 100) == a * (1 # 100))%Q)
    by (intro a; unfold Qdiv; reflexivity).
  assert (Hr : num_leb (fdiv (Fin c) (num 100)) (fdiv (Fin c') (num 100)) = true).
  { change (fdiv (Fin c) (num 100)) with (binary64 (Qdiv c (inject_Z 100))).
    change (fdiv (Fin c') (num 100)) with (binary64 (Qdiv c' (inject_Z 100))).
    apply binary64_mono. rewrite !D. lra. }
  destruct (fdiv_share c ltac:(lra) ltac:(lra)) as (r & Er & R0 & R1).
  destruct (fdiv_share c' ltac:(lra) ltac:(lra)) as (r' & Er' & R0' & R1').
  rewrite Er, Er' in *. cbn [num_leb] in Hr. apply Qle_bool_iff in Hr.
  assert (Ht : num_leb (fmul (Fin r) (Fin m)) (fmul (Fin r') (Fin m)) = true).
  { change (fmul (Fin r) (Fin m)) with (binary64 (Qmult r m)).
    change (fmul (Fin r') (Fin m)) with (binary64 (Qmult r' m)).
    apply binary64_mono. nra. }
  destruct (fmul_share r m R0 R1 Hm Hb) as (t & Et & T0 & Tm).
  destruct (fmul_share r' m R0' R1' Hm Hb) as (t' & Et' & T0' & Tm').
  rewrite Et, Et' in *. cbn [num_leb] in Ht. apply Qle_bool_iff in Ht.
  eexists. eexists. split; [reflexivity|]. split; [reflexivity|].
  apply Qfloor_resp_le. lra.
Qed.

End ScaleFacts.

Module HandlerFacts.
Import JS Outcome.
Local Open Scope js_scope.

(** Case analysis on the innermost scrutinee of the goal. *)
Ltac case_scrutinee :=
  match goal with
  | |- context [match ?r with Ok _ => _ | Throw _ => _ end] =>
      lazymatch r with
      | match _ with Ok _ => _ | Throw _ => _ end => fail
      | if _ then _ else _ => fail
      | _ => destruct r
      end
  | |- context [if ?c then _ else _] =>
      lazymatch c with
      | match _ with Ok _ => _ | Throw _ => _ end => fail
      | if _ then _ else _ => fail
      | _ => destruct c
      end
  end.

Lemma str_eqb_refl (s : jsstring) : str_eqb s s = true.
Proof. induction s; simpl; [reflexivity|]. rewrite N.eqb_refl. exact IHs. Qed.

(** Only an object has a truthy [question] or [maxMarks]. *)
Lemma truthy_question_object (b : value) :
  ToBoolean (prop b (js "question")) = true -> exists fields, b = VObj fields.
Proof.
  destruct b; intro H; try (vm_compute in H; discriminate).
  eauto.
Qed.

Section Runs.
Context {B : Builtins}.
Variable create : value -> result value.

(** The run of the handler on a POST event whose body parses. *)
Lemma handler_run (key : value) (sp : jsstring) (event : Part000.Event)
    (b : value) (w : world) :
  Part000.httpMethod event = js "POST" ->
  Part000.parseBody event = Ok b ->
  Part000.handler key create sp event w =
  if negb (ToBoolean key)
  then (Ok {| statusCode := 500; headers := [];
              body := VStr (js "OPENAI_API_KEY is not set") |}, w)
  else if isNullish b
  then failure (TypeError (js "question")) w
  else if negb (ToBoolean (prop b (js "question")))
          || negb (ToBoolean (prop b (js "maxMarks")))
  then (Ok badRequest, w)
  else
    match Part000.userContent (prop b (js "question")) (prop b (js "examType"))
            (prop b (js "timeLimit")) (prop b (js "maxMarks"))
            (Part000.orEmptyArray (prop b (js "texts")))
            (Part000.orEmptyArray (prop b (js "images"))) with
    | Throw e => failure e w
    | Ok content =>
        finish (completion <~ create (Part000.request sp content) ;;
                raw <~ Part000.rawReply completion ;;
                Part000.respObject (prop b (js "maxMarks")) raw)
               (called (Part000.request sp content) w)
    end.
Proof.
  intros Hm Hb.
  unfold Part000.handler, try_catch, bind, lift.
  rewrite Hm, str_eqb_refl. cbn [negb].
  destruct (negb (ToBoolean key)); [reflexivity|].
  rewrite Hb. unfold getProp.
  destruct (isNullish b); [reflexivity|].
  destruct (negb (ToBoolean _) || negb (ToBoolean _)); [reflexivity|].
  destruct (Part000.userContent _ _ _ _ _ _) as [content|e]; [|reflexivity].
  unfold chat_completions_create, called, finish, rbind.
  destruct (create _) as [completion|e]; [|reflexivity].
  destruct (Part000.rawReply completion) as [raw|e]; [|reflexivity].
  destruct (Part000.respObject _ _) as [resp|e]; reflexivity.
Qed.


End Runs.
End HandlerFacts.

Module ResponseFacts.
Import JS NumberFacts Outcome HandlerFacts.
Local Open Scope js_scope.

Section Responses.
Context {B : Builtins}.

(** The response object of a reply that did not parse. *)
Lemma respObject_empty (maxMarks raw e : value) (m : number) :
  (text <~ ToString raw ;; JSON_parse text) = Throw e ->
  ToNumber maxMarks = Ok m ->
  Part000.respObject maxMarks raw = Ok (degraded m).
Proof.
  intros Hp Hm. unfold Part000.respObject, Part000.parsed. rewrite Hp.
  unfold rbind, getProp. simpl isNullish. cbv iota.
  cbn [prop lookup]. unfold Part000.clamp, rbind. cbn [ToNumber isNaN].
  rewrite Hm. reflexivity.
Qed.

(** A reply that parses to anything but [null], and whose raw score has a
    number, yields a response object. *)
Lemma respObject_defined (maxMarks raw : value) (n m : number) :
  isNullish (Part000.parsed raw) = false ->
  ToNumber (prop (Part000.parsed raw) (js "rawOutOf100")) = Ok n ->
  ToNumber maxMarks = Ok m ->
  exists resp, Part000.respObject maxMarks raw = Ok resp.
Proof.
  intros Hp Hn Hm.
  destruct (ScaleFacts.clampNumber_defined _ _ Hn) as [c Hc].
  change (Evaluate.clampNumber (prop (Part000.parsed raw) (js "rawOutOf100"))
            (num 0) (num 100))
    with (Part000.clamp (prop (Part000.parsed raw) (js "rawOutOf100"))
            (num 0) (num 100)) in Hc.
  unfold Part000.respObject. cbv zeta. unfold getProp. rewrite Hp.
  unfold rbind at 1. unfold rbind at 1. rewrite Hc.
  unfold rbind at 1. rewrite Hm. unfold rbind. eauto.
Qed.

(** The marks of a request whose user message was built have a number. *)
Lemma userContent_marks
    (question examType timeLimit maxMarks texts images : value)
    (content : list value) :
  Part000.userContent question examType timeLimit maxMarks texts images
  = Ok content ->
  exists m, ToNumber maxMarks = Ok m.
Proof.
  unfold Part000.userContent, Part000.questionText, rbind. intro H.
  destruct (ToString question); [|discriminate].
  destruct (ToString (or_else examType _)); [|discriminate].
  destruct (if ToBoolean timeLimit then _ else _); [|discriminate].
  destruct (ToString maxMarks) as [s|e] eqn:E; [|discriminate].
  exact (ClampFacts.ToString_ToNumber maxMarks s E).
Qed.

End Responses.
End ResponseFacts.

(* ================================================================== *)
(** ** Validation of the request *)
(* ================================================================== *)

Module ValidationFacts.
Import JS NumberFacts Outcome HandlerFacts ResponseFacts.
Local Open Scope js_scope.



Section Validation.
Context {B : Builtins}.



End Validation.
End ValidationFacts.

(* ================================================================== *)
(** ** The reply of the model *)
(* ================================================================== *)

Module ReplyFacts.
Import JS NumberFacts Outcome HandlerFacts ResponseFacts.
Local Open Scope js_scope.

Section Reply.
Context {B : Builtins}.

(** C6.  When the content of the model's reply does not parse as JSON, the
    handler goes on with an empty object: the request is answered 200, and
    the response object has [rawOutOf100] 0, an empty [rubric] and empty
    feedback lists. *)
Theorem unparseable_reply_degrades
    (key : value) (create : value -> result value) (sp : jsstring)
    (event : Part000.Event) (b : value) (content : list value)
    (completion raw e : value) (w : world) :
  Part000.httpMethod event = js "POST" ->
  ToBoolean key = true ->
  Part000.parseBody event = Ok b ->
  ToBoolean (prop b (js "question")) = true ->
  ToBoolean (prop b (js "maxMarks")) = true ->
  Part000.userContent (prop b (js "question")) (prop b (js "examType"))
    (prop b (js "timeLimit")) (prop b (js "maxMarks"))
    (Part000.orEmptyArray (prop b (js "texts")))
    (Part000.orEmptyArray (prop b (js "images"))) = Ok content ->
  create (Part000.request sp content) = Ok completion ->
  Part000.rawReply completion = Ok raw ->
  (text <~ ToString raw ;; JSON_parse text) = Throw e ->
  exists m,
    ToNumber (prop b (js "maxMarks")) = Ok m
    /\ Part000.handler key create sp event w =
       (Ok {| statusCode := 200;
              headers := [(js "Content-Type", js "application/json")];
              body := VStr (JSON_stringify (degraded m)) |},
        called (Part000.request sp content) w)
    /\ prop (degraded m) (js "rawOutOf100") = VNum (num 0)
    /\ prop (degraded m) (js "rubric") = VObj []
    /\ prop (degraded m) (js "strengths") = VArr []
    /\ prop (degraded m) (js "weaknesses") = VArr []
    /\ prop (degraded m) (js "suggestions") = VArr []
    /\ prop (degraded m) (js "inline_comments") = VArr [].
Proof.
  intros Hm Hk Hb Hq Hx Hc Hr Hraw Hp.
  destruct (userContent_marks _ _ _ _ _ _ _ Hc) as [m Hmarks].
  exists m. split; [exact Hmarks|]. split; [|repeat split].
  rewrite (handler_run create key sp event b w Hm Hb).
  destruct (truthy_question_object b Hq) as [fields ->].
  rewrite Hk, Hq, Hx, Hc. cbn [negb orb isNullish]. unfold rbind at 1 2.
  rewrite Hr, Hraw.
  rewrite (respObject_empty _ raw e m Hp Hmarks). reflexivity.
Qed.

End Reply.
End ReplyFacts.

(* ================================================================== *)
(** ** The two modules, as they are loaded *)
(* ================================================================== *)

Module LoadFacts.
Import JS Outcome Fixture.

(** C10 on the scenario of the spec.  The [try] block of the default
    export of [evaluate.js] declares [maxMarks] at line 17 and again at
    line 107: the module has an early error and is rejected when it is
    loaded, so its default export gives no answer.  The module of
    [handler] has no early error, and [handler] answers the request 200
    with the response object. *)
Theorem evaluate_js_is_rejected :
  Evaluate.earlyError = Some (js "maxMarks", 17, 107)
  /\ Part000.earlyError = None
  /\ Part000.handler apiKey (answering (JSON_stringify replySeventy)) prompt
       (postEvent bodyFifteen) init
     = (Ok {| statusCode := 200; headers := jsonHeaders;
              body := VStr (JSON_stringify
                (VObj [(js "rawOutOf100", VNum (num 70));
                       (js "rubric", VObj []);
                       (js "strengths", VArr [VStr (js "Clear structure")]);
                       (js "weaknesses", VArr []);
                       (js "suggestions", VArr []);
                       (js "inline_comments", VArr []);
                       (js "totalScaled", VNum (num 11));
                       (js "maxMarks", VNum (num 15))])) |},
        called (Part000.request prompt (Runs.contentOf bodyFifteen)) init).
Proof. vm_compute. repeat split; reflexivity. Qed.

End LoadFacts.

(* ================================================================== *)
(** ** The scaled total in the response *)
(* ================================================================== *)

Module TotalFacts.
Import JS NumberFacts Outcome HandlerFacts ResponseFacts.
Local Open Scope js_scope.

(** C1, as amended.  For a request the handler accepts whose [maxMarks] is
    a positive whole number [m] (a binary64 number), whatever the reply
    parses to (other than [null]) with a raw score that has a number, the
    answer is 200 and carries the response object: its [rawOutOf100] is
    the clamped raw score, a number [q] between 0 and 100, and its
    [totalScaled] is [Math.round((q / 100) * m)] as the engine computes
    it, with the quotient and the product rounded to binary64, a whole
    number between 0 and [m]. *)
Theorem total_scaled_within_whole_marks {B : Builtins}
    (key : value) (create : value -> result value) (sp : jsstring)
    (event : Part000.Event) (b : value) (content : list value)
    (completion raw : value) (n : number) (m : Z) (w : world) :
  Part000.httpMethod event = js "POST" ->
  ToBoolean key = true ->
  Part000.parseBody event = Ok b ->
  ToBoolean (prop b (js "question")) = true ->
  prop b (js "maxMarks") = VNum (num m) ->
  0 < m ->
  binary64 (inject_Z m) = num m ->
  Part000.userContent (prop b (js "question")) (prop b (js "examType"))
    (prop b (js "timeLimit")) (prop b (js "maxMarks"))
    (Part000.orEmptyArray (prop b (js "texts")))
    (Part000.orEmptyArray (prop b (js "images"))) = Ok content ->
  create (Part000.request sp content) = Ok completion ->
  Part000.rawReply completion = Ok raw ->
  isNullish (Part000.parsed raw) = false ->
  ToNumber (prop (Part000.parsed raw) (js "rawOutOf100")) = Ok n ->
  exists resp q k,
    Part000.handler key create sp event w
    = (Ok {| statusCode := 200;
             headers := [(js "Content-Type", js "application/json")];
             body := VStr (JSON_stringify resp) |},
       called (Part000.request sp content) w)
    /\ Part000.clamp (prop (Part000.parsed raw) (js "rawOutOf100"))
         (num 0) (num 100) = Ok (Fin q)
    /\ prop resp (js "rawOutOf100") = VNum (Fin q)
    /\ (0 <= q)%Q /\ (q <= 100)%Q
    /\ prop resp (js "maxMarks") = VNum (num m)
    /\ prop resp (js "totalScaled") = VNum (num k)
    /\ Math_round (fmul (fdiv (Fin q) (num 100)) (num m)) = num k
    /\ 0 <= k <= m.
Proof.
  intros Hm Hk Hb Hq Hmarks Hpos Hrep Hc Hr Hraw Hn Hscore.
  destruct (truthy_question_object b Hq) as [fields ->].
  destruct (ScaleFacts.clampNumber_defined _ _ Hscore) as [c Hc'].
  destruct (ScaleFacts.clampNumber_range _ _ Hc') as (q & -> & Hq0 & Hq100).
  change (Evaluate.clampNumber (prop (Part000.parsed raw) (js "rawOutOf100"))
            (num 0) (num 100))
    with (Part000.clamp (prop (Part000.parsed raw) (js "rawOutOf100"))
            (num 0) (num 100)) in Hc'.
  destruct (ScaleFacts.scaled_within_whole_marks q m Hq0 Hq100 ltac:(lia) Hrep)
    as (k & Hk' & Hk0).
  assert (Hx : ToBoolean (prop (VObj fields) (js "maxMarks")) = true).
  { rewrite Hmarks. cbn [ToBoolean num]. unfold Qis_zero, inject_Z. cbn [Qnum].
    destruct (Z.eqb_spec m 0); [lia|reflexivity]. }
  assert (Hresp : Part000.respObject (prop (VObj fields) (js "maxMarks")) raw
                  = Ok (VObj
      [(js "rawOutOf100", VNum (Fin q));
       (js "rubric", or_else (prop (Part000.parsed raw) (js "rubric")) (VObj []));
       (js "strengths",
        or_else (prop (Part000.parsed raw) (js "strengths")) (VArr []));
       (js "weaknesses",
        or_else (prop (Part000.parsed raw) (js "weaknesses")) (VArr []));
       (js "suggestions",
        or_else (prop (Part000.parsed raw) (js "suggestions")) (VArr []));
       (js "inline_comments",
        or_else (prop (Part000.parsed raw) (js "inline_comments")) (VArr []));
       (js "totalScaled", VNum (num k));
       (js "maxMarks", VNum (num m))])).
  { unfold Part000.respObject. cbv zeta. unfold getProp. rewrite Hn.
    unfold rbind at 1. unfold rbind at 1. rewrite Hc'.
    rewrite Hmarks. cbn [ToNumber]. unfold rbind. rewrite Hk'. reflexivity. }
  eexists. exists q, k.
  split.
  { rewrite (handler_run create key sp event (VObj fields) w Hm Hb).
    rewrite Hk, Hq, Hx, Hc. cbn [negb orb isNullish]. unfold rbind at 1 2.
    rewrite Hr, Hraw, Hresp. reflexivity. }
  split; [exact Hc'|].
  split; [reflexivity|].
  split; [exact Hq0|]. split; [exact Hq100|].
  split; [reflexivity|]. split; [reflexivity|].
  split; [exact Hk'|exact Hk0].
Qed.

End TotalFacts.

Module Scenarios.
Import JS NumberFacts Outcome HandlerFacts ResponseFacts Fixture.

(** C1, as stated, fails.  With 12.5 marks and a raw score of 100 the
    handler answers [totalScaled] 13, above [maxMarks].  With 50 marks and
    a raw score of 29 it answers 14, where the formula over the rationals
    gives 15: the quotient 29 / 100 is rounded to a binary64 number just
    below 0.29. *)
Lemma fractional_marks_overshoot :
  Part000.handler apiKey (answering (JSON_stringify replyFull)) prompt
    (postEvent bodyFractional) init
  = (Ok {| statusCode := 200; headers := jsonHeaders;
           body := VStr (JSON_stringify
             (VObj [(js "rawOutOf100", VNum (num 100));
                    (js "rubric", VObj []);
                    (js "strengths", VArr []);
                    (js "weaknesses", VArr []);
                    (js "suggestions", VArr []);
                    (js "inline_comments", VArr []);
                    (js "totalScaled", VNum (num 13));
                    (js "maxMarks", VNum (Fin (25 # 2)))])) |},
     called (Part000.request prompt (Runs.contentOf bodyFractional)) init)
  /\ num_ltb (Fin (25 # 2)) (num 13) = true
  /\ Part000.handler apiKey (answering (JSON_stringify replyTwentyNine)) prompt
       (postEvent bodyFifty) init
     = (Ok {| statusCode := 200; headers := jsonHeaders;
              body := VStr (JSON_stringify
                (VObj [(js "rawOutOf100", VNum (num 29));
                       (js "rubric", VObj []);
                       (js "strengths", VArr []);
                       (js "weaknesses", VArr []);
                       (js "suggestions", VArr []);
                       (js "inline_comments", VArr []);
                       (js "totalScaled", VNum (num 14));
                       (js "maxMarks", VNum (num 50))])) |},
        called (Part000.request prompt (Runs.contentOf bodyFifty)) init)
  /\ Spec.total (inject_Z 29) (inject_Z 50) = 15
  /\ fdiv (num 29) (num 100) = Fin (5224175567749775 # 18014398509481984).
Proof. vm_compute. repeat split; reflexivity. Qed.

(** The end-to-end scenario of the spec: 15 marks and a raw score of 70
    give 11. *)
Example fifteen_marks_seventy :
  fst (Part000.handler apiKey (answering (JSON_stringify replySeventy)) prompt
         (postEvent bodyFifteen) init)
  = Ok {| statusCode := 200; headers := jsonHeaders;
          body := VStr (JSON_stringify
            (VObj [(js "rawOutOf100", VNum (num 70));
                   (js "rubric", VObj []);
                   (js "strengths", VArr [VStr (js "Clear structure")]);
                   (js "weaknesses", VArr []);
                   (js "suggestions", VArr []);
                   (js "inline_comments", VArr []);
                   (js "totalScaled", VNum (num 11));
                   (js "maxMarks", VNum (num 15))])) |}
  /\ Spec.total (inject_Z 70) (inject_Z 15) = 11.
Proof. vm_compute. split; reflexivity. Qed.



End Scenarios.

(* ================================================================== *)
(** ** Truncation of the compiled text *)
(* ================================================================== *)

Module TruncationFacts.
Import JS Outcome HandlerFacts.
Local Open Scope js_scope.





End TruncationFacts.

(* ================================================================== *)
(** ** The PDF fallback *)
(* ================================================================== *)

Module PdfFacts.
Import JS.

Lemma text_extracted (pdf : App.Pdf) :
  App.text (App.extractFromPDF pdf)
  = App.pagesText 1 (firstn (Nat.min (App.numPages pdf) 20) pdf).
Proof. reflexivity. Qed.

(** C9.  A PDF whose trimmed text has exactly 500 code units contributes
    nothing: the extractor renders no page (it asks for fewer than 500)
    and the caller keeps no text (it asks for more than 500). *)
Theorem pdf_500_dropped (name : jsstring) (pdf : App.Pdf) (p : App.Payload) :
  str_length (trim (App.text (App.extractFromPDF pdf))) = 500 ->
  App.pagesAsImages (App.extractFromPDF pdf) = []
  /\ App.pdfBranch name pdf p = p.
Proof.
  intro H.
  assert (I : App.pagesAsImages (App.extractFromPDF pdf) = []).
  { rewrite text_extracted in H. unfold App.extractFromPDF. cbn [App.pagesAsImages].
    rewrite H. cbn [Z.ltb Z.compare Pos.compare Pos.compare_cont].
    rewrite orb_false_r.
    destruct (App.pagesText _ _); [discriminate H|reflexivity]. }
  split; [exact I|].
  unfold App.pdfBranch. rewrite H, I.
  rewrite andb_false_r. simpl. rewrite app_nil_r. destruct p; reflexivity.
Qed.

(** The theorem on a one-page document with 500 code units of text. *)
Lemma pdf_500_witness :
  str_length (trim (App.text (App.extractFromPDF (Documents.onePage 491)))) = 500
  /\ App.pdfBranch (js "notes.pdf") (Documents.onePage 491) Documents.empty
     = Documents.empty.
Proof.
  split; [vm_compute; reflexivity|].
  apply (pdf_500_dropped (js "notes.pdf") (Documents.onePage 491) Documents.empty).
  vm_compute. reflexivity.
Defined.

(** C4 at the boundary.  With 500 code units of trimmed text the document
    is not kept as text (nothing is pushed); with 499 its rendered page
    is pushed as an image; text is kept from 501 on. *)
Theorem pdf_boundary :
  str_length (trim (App.text (App.extractFromPDF (Documents.onePage 491)))) = 500
  /\ App.texts (App.pdfBranch (js "essay.pdf") (Documents.onePage 491) Documents.empty) = []
  /\ App.images (App.pdfBranch (js "essay.pdf") (Documents.onePage 491) Documents.empty) = []
  /\ str_length (trim (App.text (App.extractFromPDF (Documents.onePage 490)))) = 499
  /\ App.pdfBranch (js "essay.pdf") (Documents.onePage 490) Documents.empty
     = {| App.texts := [];
          App.images := [{| App.mime := js "image/jpeg";
                            App.dataUrl := js "data:image/jpeg;base64,/9j/4AAQ" |}] |}
  /\ str_length (trim (App.text (App.extractFromPDF (Documents.onePage 492)))) = 501
  /\ App.pdfBranch (js "essay.pdf") (Documents.onePage 492) Documents.empty
     = {| App.texts := [{| App.source := js "essay.pdf";
                           App.sourceText :=
                             App.text (App.extractFromPDF (Documents.onePage 492)) |}];
          App.images := [] |}.
Proof. vm_compute. repeat split; reflexivity. Qed.

End PdfFacts.

(* ================================================================== *)
(** ** The order of the slides *)
(* ================================================================== *)

Module SlideFacts.
Import JS App Spec RoundingFacts.

Lemma takeDigits_uint (d : Decimal.uint) (r : jsstring) :
  takeDigits (uint_chars d ++ 46%N :: r) = uint_chars d.
Proof.
  induction d; cbn [uint_chars app takeDigits];
    try (change (isDigit 46%N) with false; cbv iota; reflexivity);
    match goal with
    | |- context [isDigit ?k] => change (isDigit k) with true
    end; cbv iota; rewrite IHd; reflexivity.
Qed.

Lemma digits_acc (d : Decimal.uint) (acc : positive) :
  fold_left (fun acc c => 10 * acc + (Z.of_N c - 48)) (uint_chars d) (Z.pos acc)
  = Z.pos (Pos.of_uint_acc d acc).
Proof.
  revert acc. induction d; intro acc; cbn [uint_chars fold_left Pos.of_uint_acc];
    [reflexivity|..];
    match goal with
    | |- fold_left _ _ ?z = Z.pos (Pos.of_uint_acc _ ?a) =>
        replace z with (Z.pos a) by lia
    end; apply IHd.
Qed.

Lemma digitsToZ_uint (d : Decimal.uint) :
  digitsToZ (uint_chars d) = Z.of_N (Pos.of_uint d).
Proof.
  unfold digitsToZ.
  induction d; cbn [uint_chars fold_left Pos.of_uint];
    [reflexivity|exact IHd|..];
    match goal with
    | |- fold_left _ _ ?z = Z.of_N (N.pos (Pos.of_uint_acc _ ?a)) =>
        change z with (Z.pos a)
    end; apply digits_acc.
Qed.

Lemma digitsToZ_decimal (n : N) : digitsToZ (decimal n) = Z.of_N n.
Proof.
  unfold decimal. rewrite digitsToZ_uint.
  change (Pos.of_uint (N.to_uint n)) with (N.of_uint (N.to_uint n)).
  rewrite DecimalN.Unsigned.of_to. reflexivity.
Qed.

Lemma decimal_not_empty (n : N) : isEmpty (decimal n) = false.
Proof.
  unfold decimal. destruct n as [|p]; [reflexivity|]. cbn [N.to_uint].
  pose proof (DecimalPos.Unsigned.to_uint_nonnil p) as H.
  destruct (Pos.to_uint p); [contradiction|reflexivity..].
Qed.

Lemma matchHere_digits (ds r : jsstring) :
  takeDigits (ds ++ 46%N :: r) = ds ->
  isEmpty ds = false ->
  startsWith (46%N :: r) (js ".xml") = true ->
  matchHere (js "slide" ++ ds ++ 46%N :: r) = Some ds.
Proof.
  intros Hd He Hx. unfold matchHere.
  change (js "slide" ++ ds ++ 46%N :: r)
    with (115 :: 108 :: 105 :: 100 :: 101 :: ds ++ 46 :: r)%N.
  change (startsWith (115 :: 108 :: 105 :: 100 :: 101 :: ds ++ 46 :: r)%N
                     (js "slide"))
    with (startsWith (ds ++ 46%N :: r) []).
  replace (startsWith (ds ++ 46%N :: r) []) with true
    by (destruct (ds ++ 46%N :: r); reflexivity).
  cbv zeta. cbn [skipn]. rewrite !Hd, He. cbn [negb andb].
  rewrite skipn_app, skipn_all, Nat.sub_diag. cbn [skipn app].
  rewrite Hx. reflexivity.
Qed.

Lemma matchHere_slide (n : N) :
  matchHere (js "slide" ++ decimal n ++ js ".xml") = Some (decimal n).
Proof.
  apply (matchHere_digits (decimal n) (js "xml")).
  - apply takeDigits_uint.
  - apply decimal_not_empty.
  - reflexivity.
Qed.

Lemma matchSlide_prefix (t : jsstring) :
  matchSlide (js "ppt/slides/slide" ++ t) = matchSlide (js "slide" ++ t).
Proof. reflexivity. Qed.


Lemma matchSlide_slidePath (n : N) : matchSlide (slidePath n) = Some (decimal n).
Proof.
  unfold slidePath. rewrite matchSlide_prefix.
  destruct (js "slide" ++ decimal n ++ js ".xml") as [|c s] eqn:E;
    [discriminate|].
  cbn [matchSlide]. rewrite <- E, matchHere_slide. reflexivity.
Qed.

(** Below [2^53] the key of the sort is the index itself. *)
Lemma slideNumber_slidePath (n : N) :
  (n < 2 ^ 53)%N -> slideNumber (slidePath n) = num (Z.of_N n).
Proof.
  intro H. unfold slideNumber, digitsToNumber.
  rewrite matchSlide_slidePath, digitsToZ_decimal.
  apply binary64_whole. split; [lia|].
  change (2 ^ 53) with (Z.of_N (2 ^ 53)). lia.
Qed.

Lemma not_above_zero (x : number) :
  num_leb x (Fin 0) = true -> num_ltb (num 0) x = false.
Proof.
  destruct x as [| | |t]; try reflexivity; try discriminate.
  cbn [num_leb num_ltb num]. intro H. apply Qle_bool_iff in H.
  apply NumberFacts.Qlt_bool_false_iff. exact H.
Qed.

(** The comparator is above 0 exactly when the first index is the
    larger. *)
Lemma compareSlides_slidePath (a b : N) :
  (a < 2 ^ 53)%N -> (b < 2 ^ 53)%N ->
  num_ltb (num 0) (compareSlides (slidePath a) (slidePath b)) = (b <? a)%N.
Proof.
  intros Ha Hb. unfold compareSlides. cbv zeta.
  rewrite (slideNumber_slidePath a Ha), (slideNumber_slidePath b Hb).
  change (fsub (num (Z.of_N a)) (num (Z.of_N b)))
    with (binary64 (Qminus (inject_Z (Z.of_N a)) (inject_Z (Z.of_N b)))).
  assert (E : (inject_Z (Z.of_N a) - inject_Z (Z.of_N b)
               == inject_Z (Z.of_N a - Z.of_N b))%Q).
  { unfold Qminus, Z.sub. rewrite inject_Z_plus, inject_Z_opp. reflexivity. }
  rewrite (binary64_comp _ _ E).
  assert (Ha' : Z.of_N a < 2 ^ 53) by (change (2 ^ 53) with (Z.of_N (2 ^ 53)); lia).
  destruct (N.ltb_spec b a) as [L|L].
  - rewrite binary64_whole by lia.
    cbn [num_ltb num]. apply NumberFacts.Qlt_bool_iff.
    rewrite <- Zlt_Qlt. lia.
  - apply not_above_zero. change (Fin 0) with (binary64 0).
    apply binary64_mono. change 0%Q with (inject_Z 0).
    rewrite <- Zle_Qle. lia.
Qed.

Lemma insert_slidePath (a : N) (l : list N) :
  Forall (fun n => (n < 2 ^ 53)%N) (a :: l) ->
  StronglySorted N.le l ->
  exists l',
    insert compareSlides (slidePath a) (List.map slidePath l)
    = List.map slidePath l'
    /\ Permutation (a :: l) l'
    /\ StronglySorted N.le l'.
Proof.
  intros Hb Hs. inversion Hb as [|? ? Ha Hl]; subst. clear Hb.
  induction Hs as [|y l Hs IH Hy].
  - exists [a]. split; [reflexivity|]. split; [reflexivity|].
    repeat constructor.
  - inversion Hl as [|? ? Hyb Hlb]; subst.
    cbn [List.map insert]. rewrite (compareSlides_slidePath a y Ha Hyb).
    destruct (N.ltb_spec y a) as [L|L].
    + destruct (IH Hlb) as (l' & E & P & S).
      exists (y :: l'). split; [rewrite E; reflexivity|]. split.
      * rewrite perm_swap. apply perm_skip, P.
      * constructor; [exact S|].
        eapply Permutation_Forall; [exact P|].
        constructor; [lia|exact Hy].
    + exists (a :: y :: l). split; [reflexivity|]. split; [reflexivity|].
      constructor; [constructor; assumption|].
      constructor; [exact L|].
      eapply Forall_impl; [|exact Hy]. intros z Hz. cbv beta in *. lia.
Qed.

Lemma sort_slidePath (ns : list N) :
  Forall (fun n => (n < 2 ^ 53)%N) ns ->
  exists ms,
    sort compareSlides (List.map slidePath ns) = List.map slidePath ms
    /\ Permutation ns ms
    /\ StronglySorted N.le ms.
Proof.
  induction 1 as [|a ns Ha Hns IH].
  - exists []. split; [reflexivity|]. split; [reflexivity|constructor].
  - destruct IH as (ms & E & P & S).
    cbn [List.map sort]. rewrite E.
    assert (Hb : Forall (fun n => (n < 2 ^ 53)%N) (a :: ms)).
    { constructor; [exact Ha|].
      eapply Permutation_Forall; [exact P|exact Hns]. }
    destruct (insert_slidePath a ms Hb S) as (l' & E' & P' & S').
    exists l'. split; [exact E'|]. split; [|exact S'].
    rewrite <- P'. apply perm_skip, P.
Qed.

(** C5, as amended.  For an archive whose slide files are
    [ppt/slides/slide<n>.xml] with indices [n] below [2^53], the slide
    parts are processed by increasing index: the sorted list holds exactly
    the slide files of the archive, in the order of their indices as
    numbers. *)
Theorem slides_in_numeric_order (zip : Zip) (ns : list N) :
  List.filter isSlidePath (List.map fst zip) = List.map slidePath ns ->
  Forall (fun n => (n < 2 ^ 53)%N) ns ->
  exists ms,
    slideFiles zip = List.map slidePath ms
    /\ Permutation ns ms
    /\ StronglySorted N.le ms.
Proof.
  intros Hz Hb. unfold slideFiles. rewrite Hz. apply sort_slidePath, Hb.
Qed.

(** C5, as stated, fails above [2^53]: the indices 9007199254740993 and
    9007199254740992 have the same [Number], the comparator answers 0 and
    the two slides stay in the order of the archive, the larger index
    first. *)
Lemma huge_indices_keep_archive_order :
  List.filter isSlidePath (List.map fst Documents.hugeDeck)
  = List.map slidePath [9007199254740993%N; 9007199254740992%N]
  /\ slideFiles Documents.hugeDeck
     = List.map slidePath [9007199254740993%N; 9007199254740992%N]
  /\ (9007199254740992 < 9007199254740993)%N
  /\ slideNumber (slidePath 9007199254740993) = num 9007199254740992
  /\ slideNumber (slidePath 9007199254740992) = num 9007199254740992
  /\ extractFromPPTX Documents.hugeDeck
     = App.nl ++ App.nl ++ js "[Slide 9007199254740993] Later"
       ++ App.nl ++ App.nl ++ js "[Slide 9007199254740992] Earlier".
Proof. vm_compute. repeat split; reflexivity. Qed.

End SlideFacts.

(* ================================================================== *)
(** ** The theorems at sample requests *)
(* ================================================================== *)

Module Witnesses.
Import JS Outcome ResponseFacts Fixture Runs.

(** The clamp theorem at 250, -3, a string that is no numeral, and 70. *)
Lemma clamp_coerced_witness :
  Evaluate.clampNumber (VNum (num 250)) (num 0) (num 100) = Ok (num 100)
  /\ Evaluate.clampNumber (VNum (num (-3))) (num 0) (num 100) = Ok (num 0)
  /\ Evaluate.clampNumber (VStr (js "abc")) (num 0) (num 100) = Ok (num 0)
  /\ exists c, Evaluate.clampNumber (VNum (num 70)) (num 0) (num 100) = Ok c
               /\ num_eq c (num 70).
Proof.
  pose proof (proj1 (proj2 (ClampFacts.clamp_coerced (VNum (num 250))))
                (num 250) eq_refl) as (c250 & E250 & _ & _ & H250 & _).
  pose proof (proj1 (proj2 (ClampFacts.clamp_coerced (VNum (num (-3)))))
                (num (-3)) eq_refl) as (cneg & Eneg & _ & Hneg & _).
  pose proof (proj1 (proj2 (ClampFacts.clamp_coerced (VStr (js "abc"))))
                NaN eq_refl) as (cnan & Enan & Hnan & _).
  pose proof (proj1 (proj2 (ClampFacts.clamp_coerced (VNum (num 70))))
                (num 70) eq_refl) as (c70 & E70 & _ & _ & _ & H70).
  rewrite E250, Eneg, Enan, E70.
  rewrite (H250 eq_refl), (Hneg eq_refl), (Hnan eq_refl).
  split; [reflexivity|]. split; [reflexivity|]. split; [reflexivity|].
  exists c70. split; [reflexivity|]. apply H70; reflexivity.
Defined.



(** The handler on a reply that is not JSON. *)
Lemma unparseable_reply_witness :
  Part000.handler apiKey (answering (js "not json")) prompt
    (postEvent bodyFifteen) init
  = (Ok {| statusCode := 200; headers := jsonHeaders;
           body := VStr (JSON_stringify (degraded (num 15))) |},
     called (Part000.request prompt (contentOf bodyFifteen)) init).
Proof.
  assert (Hevent : Part000.parseBody (postEvent bodyFifteen) = Ok bodyFifteen)
    by (vm_compute; reflexivity).
  assert (Hcontent :
    Part000.userContent (prop bodyFifteen (js "question"))
      (prop bodyFifteen (js "examType")) (prop bodyFifteen (js "timeLimit"))
      (prop bodyFifteen (js "maxMarks"))
      (Part000.orEmptyArray (prop bodyFifteen (js "texts")))
      (Part000.orEmptyArray (prop bodyFifteen (js "images")))
    = Ok (contentOf bodyFifteen)) by (vm_compute; reflexivity).
  assert (Hparse : rbind (ToString (VStr (js "not json"))) JS.JSON_parse
                   = Throw syntaxError) by (vm_compute; reflexivity).
  destruct (ReplyFacts.unparseable_reply_degrades
              apiKey (answering (js "not json")) prompt (postEvent bodyFifteen)
              bodyFifteen (contentOf bodyFifteen) (completionOf (js "not json"))
              (VStr (js "not json")) syntaxError init
              eq_refl eq_refl Hevent eq_refl eq_refl Hcontent eq_refl eq_refl
              Hparse)
    as (m & Hm & Hrun & _).
  injection Hm as <-. exact Hrun.
Defined.

(** The scenario of the spec: 15 marks, raw score 70, total 11. *)
Lemma total_scaled_witness :
  exists resp,
    Part000.handler apiKey (answering (JSON_stringify replySeventy)) prompt
      (postEvent bodyFifteen) init
    = (Ok {| statusCode := 200; headers := jsonHeaders;
             body := VStr (JSON_stringify resp) |},
       called (Part000.request prompt (contentOf bodyFifteen)) init)
    /\ prop resp (js "totalScaled") = VNum (num 11)
    /\ prop resp (js "maxMarks") = VNum (num 15).
Proof.
  assert (Hevent : Part000.parseBody (postEvent bodyFifteen) = Ok bodyFifteen)
    by (vm_compute; reflexivity).
  assert (Hrep : binary64 (inject_Z 15) = num 15) by (vm_compute; reflexivity).
  assert (Hcontent :
    Part000.userContent (prop bodyFifteen (js "question"))
      (prop bodyFifteen (js "examType")) (prop bodyFifteen (js "timeLimit"))
      (prop bodyFifteen (js "maxMarks"))
      (Part000.orEmptyArray (prop bodyFifteen (js "texts")))
      (Part000.orEmptyArray (prop bodyFifteen (js "images")))
    = Ok (contentOf bodyFifteen)) by (vm_compute; reflexivity).
  assert (Hn : isNullish (Part000.parsed (VStr (JSON_stringify replySeventy)))
               = false) by (vm_compute; reflexivity).
  assert (Hs : ToNumber (prop (Part000.parsed (VStr (JSON_stringify replySeventy)))
                              (js "rawOutOf100")) = Ok (num 70))
    by (vm_compute; reflexivity).
  destruct (TotalFacts.total_scaled_within_whole_marks
              apiKey (answering (JSON_stringify replySeventy)) prompt
              (postEvent bodyFifteen) bodyFifteen (contentOf bodyFifteen)
              (completionOf (JSON_stringify replySeventy))
              (VStr (JSON_stringify replySeventy)) (num 70) 15 init
              eq_refl eq_refl Hevent eq_refl eq_refl eq_refl Hrep Hcontent
              eq_refl eq_refl Hn Hs)
    as (resp & q & k & Hrun & Hclamp & _ & _ & _ & Hmarks & Htotal & Hk & _).
  exists resp. split; [exact Hrun|]. split; [|exact Hmarks].
  rewrite Htotal. vm_compute in Hclamp. injection Hclamp as <-.
  vm_compute in Hk. injection Hk as <-. reflexivity.
Defined.


(** The archive of the spec: slides 2, 10 and 1 are processed in the
    order 1, 2, 10, where the order of the strings would put 10 before
    2. *)
Lemma slides_in_numeric_order_witness :
  App.slideFiles Documents.deck
  = [js "ppt/slides/slide1.xml"; js "ppt/slides/slide2.xml";
     js "ppt/slides/slide10.xml"]
  /\ App.extractFromPPTX Documents.deck
     = App.nl ++ App.nl ++ js "[Slide 1] Title"
       ++ App.nl ++ App.nl ++ js "[Slide 2] Body"
       ++ App.nl ++ App.nl ++ js "[Slide 10] The end"
  /\ exists ms,
       App.slideFiles Documents.deck = List.map Spec.slidePath ms
       /\ Permutation [2%N; 10%N; 1%N] ms
       /\ StronglySorted N.le ms.
Proof.
  split; [vm_compute; reflexivity|]. split; [vm_compute; reflexivity|].
  apply (SlideFacts.slides_in_numeric_order Documents.deck [2%N; 10%N; 1%N]).
  - vm_compute. reflexivity.
  - repeat constructor.
Defined.

End Witnesses.

(* ================================================================== *)
(** ** What the handler answers, whatever the request *)
(* ================================================================== *)

Module AnswerFacts.
Import JS Outcome Measures HandlerFacts.
Local Open Scope js_scope.

Lemma str_eqb_eq (a b : jsstring) : str_eqb a b = true -> a = b.
Proof.
  revert b. induction a as [|x a IH]; destruct b as [|y b]; simpl;
    try discriminate; [reflexivity|].
  intro H. apply andb_true_iff in H. destruct H as [Hx Hab].
  apply N.eqb_eq in Hx. rewrite Hx, (IH b Hab). reflexivity.
Qed.

Lemma str_eqb_neq (a b : jsstring) : a <> b -> str_eqb a b = false.
Proof.
  intro H. destruct (str_eqb a b) eqn:E; [|reflexivity].
  exfalso. apply H, str_eqb_eq, E.
Qed.

Section Answers.
Context {B : Builtins}.
Variable create : value -> result value.

(** Every run of the handler ends in one of six ways. *)
Lemma handler_outcomes (key : value) (sp : jsstring) (event : Part000.Event)
    (w : world) :
  let run := Part000.handler key create sp event w in
  run = (Ok notAllowed, w)
  \/ run = (Ok keyMissing, w)
  \/ run = (Ok badRequest, w)
  \/ (exists e, run = failure e w)
  \/ (exists r e, run = failure e (called r w))
  \/ (exists r resp, run = success resp (called r w)).
Proof.
  cbv zeta.
  destruct (str_eqb (Part000.httpMethod event) (js "POST")) eqn:Hm.
  - apply str_eqb_eq in Hm.
    destruct (Part000.parseBody event) as [b|e] eqn:Hb.
    + rewrite (handler_run create key sp event b w Hm Hb).
      destruct (negb (ToBoolean key)); [right; left; reflexivity|].
      destruct (isNullish b); [right; right; right; left; eexists; reflexivity|].
      destruct (negb _ || negb _); [right; right; left; reflexivity|].
      destruct (Part000.userContent _ _ _ _ _ _) as [content|e];
        [|right; right; right; left; eexists; reflexivity].
      destruct (rbind _ _) as [resp|e]; cbn [finish].
      * right; right; right; right; right. eexists. eexists. reflexivity.
      * right; right; right; right; left. eexists. eexists. reflexivity.
    + unfold Part000.handler, try_catch, bind, lift.
      rewrite Hm, str_eqb_refl, Hb. cbn [negb].
      destruct (negb (ToBoolean key)); [right; left; reflexivity|].
      right; right; right; left. exists e. reflexivity.
  - left. unfold Part000.handler, try_catch. rewrite Hm. reflexivity.
Qed.

(** X1.  A request with any method but POST is answered 405 and leaves
    the world as it was: the body is not read, the key is not looked at,
    the model is not invoked, nothing is logged. *)
Theorem other_methods_refused (sp : jsstring) (key : value)
    (event : Part000.Event) (w : world) :
  Part000.httpMethod event <> js "POST" ->
  Part000.handler key create sp event w =
    (Ok {| statusCode := 405; headers := [];
           body := VStr (js "Method not allowed") |}, w).
Proof.
  intro He. unfold Part000.handler, try_catch.
  rewrite (str_eqb_neq _ _ He). reflexivity.
Qed.

(** X2.  The handler never throws: every run ends with an answer, whose
    status is 200, 400, 405 or 500; the answer carries the JSON content
    type exactly when it is a 200, and no header otherwise. *)
Theorem handler_always_answers (sp : jsstring) (key : value)
    (event : Part000.Event) (w : world) :
  exists resp w',
    Part000.handler key create sp event w = (Ok resp, w')
    /\ In (statusCode resp) [200; 400; 405; 500]
    /\ headers resp = (if statusCode resp =? 200 then jsonHeaders else []).
Proof.
  destruct (handler_outcomes key sp event w)
    as [H|[H|[H|[[e H]|[(r & e & H)|(r & resp & H)]]]]];
    rewrite H; eexists; eexists; (split; [reflexivity|]); simpl; auto 6.
Qed.

(** X3.  A run invokes the model at most once and logs at most one error.
    An answer 400 or 405 leaves the world untouched, and the model has
    been invoked, exactly once, before every 200. *)
Theorem model_invoked_at_most_once (sp : jsstring) (key : value)
    (event : Part000.Event) (w : world) :
  forall resp w',
    Part000.handler key create sp event w = (Ok resp, w') ->
    (calls w' = calls w \/ exists r, calls w' = calls w ++ [r])
    /\ (console w' = console w \/ exists e, console w' = console w ++ [e])
    /\ (statusCode resp = 400 \/ statusCode resp = 405 -> w' = w)
    /\ (statusCode resp = 200 ->
        exists r, calls w' = calls w ++ [r] /\ console w' = console w).
Proof.
  intros resp w' Hrun.
  destruct (handler_outcomes key sp event w)
    as [H|[H|[H|[[e H]|[(r & e & H)|(r & resp' & H)]]]]];
    cbv zeta in H; rewrite H in Hrun; injection Hrun as <- <-; simpl;
    repeat split; eauto; intros; try discriminate;
    try (destruct H0; discriminate); eauto.
Qed.

End Answers.
End AnswerFacts.

Module FailureFacts.
Import JS Outcome Measures HandlerFacts AnswerFacts.
Local Open Scope js_scope.

Section Failures.
Context {B : Builtins}.
Variable create : value -> result value.

(** X4.  A POST whose body does not parse as JSON is answered 500 with
    the message of the error, or ["Internal error"] when it has none; the
    error is logged and the model is not invoked. *)
Theorem unreadable_body_answers_500 (sp : jsstring) (key : value)
    (event : Part000.Event) (e : value) (w : world) :
  Part000.httpMethod event = js "POST" ->
  ToBoolean key = true ->
  Part000.parseBody event = Throw e ->
  Part000.handler key create sp event w =
    (Ok {| statusCode := 500; headers := [];
           body := or_else (optProp e (js "message")) (VStr (js "Internal error")) |},
     {| calls := calls w; console := console w ++ [e] |}).
Proof.
  intros Hm Hk Hb.
  unfold Part000.handler, try_catch, bind, lift.
  rewrite Hm, str_eqb_refl, Hk, Hb. reflexivity.
Qed.

(** X5.  When the call to the model rejects with [e], the handler answers
    500 with [e.message], or ["Internal error"] when [e] has none; the
    model has been invoked once, with the request built, and [e] is
    logged.  Nothing is retried. *)
Theorem upstream_rejection_answers_500 (sp : jsstring) (key : value)
    (event : Part000.Event) (b : value)
    (content : list value) (e : value) (w : world) :
  Part000.httpMethod event = js "POST" ->
  ToBoolean key = true ->
  Part000.parseBody event = Ok b ->
  ToBoolean (prop b (js "question")) = true ->
  ToBoolean (prop b (js "maxMarks")) = true ->
  Part000.userContent (prop b (js "question")) (prop b (js "examType"))
    (prop b (js "timeLimit")) (prop b (js "maxMarks"))
    (Part000.orEmptyArray (prop b (js "texts")))
    (Part000.orEmptyArray (prop b (js "images"))) = Ok content ->
  create (Part000.request sp content) = Throw e ->
  Part000.handler key create sp event w =
    (Ok {| statusCode := 500; headers := [];
           body := or_else (optProp e (js "message")) (VStr (js "Internal error")) |},
     {| calls := calls w ++ [Part000.request sp content];
        console := console w ++ [e] |}).
Proof.
  intros Hm Hk Hb Hq Hx Hc He.
  rewrite (handler_run create key sp event b w Hm Hb).
  destruct (truthy_question_object b Hq) as [fields ->].
  rewrite Hk, Hq, Hx, Hc. cbn [negb orb isNullish].
  unfold rbind at 1. rewrite He. reflexivity.
Qed.

(** X25.  A POST whose body parses to [null] is answered 500, also when
    it has no [question]: destructuring [null] throws a TypeError, which
    the [catch] clause logs and answers; the model is not invoked. *)
Theorem null_body_answers_500 (sp : jsstring) (key : value)
    (event : Part000.Event) (w : world) :
  Part000.httpMethod event = js "POST" ->
  ToBoolean key = true ->
  Part000.parseBody event = Ok VNull ->
  Part000.handler key create sp event w =
    (Ok {| statusCode := 500; headers := [];
           body := or_else (optProp (TypeError (js "question")) (js "message"))
                           (VStr (js "Internal error")) |},
     {| calls := calls w;
        console := console w ++ [TypeError (js "question")] |}).
Proof.
  intros Hm Hk Hb.
  rewrite (handler_run create key sp event VNull w Hm Hb), Hk. reflexivity.
Qed.

End Failures.
End FailureFacts.

(** The theorems above at sample requests. *)
Module FailureWitnesses.
Import JS Outcome Measures Fixture.

Lemma other_methods_witness :
  Part000.handler VUndefined (Fixture.answering (js "{}")) Fixture.prompt
    getEvent init
  = (Ok notAllowed, init).
Proof.
  apply (AnswerFacts.other_methods_refused (B := Fixture.engine)).
  vm_compute. discriminate.
Defined.

(** The scenario of the spec: one call to the model, nothing logged. *)
Lemma model_invoked_once_witness :
  exists r,
    calls (Outcome.called (Part000.request Fixture.prompt
                             (Runs.contentOf Fixture.bodyFifteen)) init)
    = calls init ++ [r]
    /\ console (Outcome.called (Part000.request Fixture.prompt
                                 (Runs.contentOf Fixture.bodyFifteen)) init)
       = console init.
Proof.
  refine (proj2 (proj2 (proj2
    (AnswerFacts.model_invoked_at_most_once (B := Fixture.engine)
       (Fixture.answering (JSON_stringify Fixture.replySeventy))
       Fixture.prompt Fixture.apiKey (Fixture.postEvent Fixture.bodyFifteen)
       init
       {| statusCode := 200; headers := jsonHeaders;
          body := VStr (JSON_stringify
            (VObj [(js "rawOutOf100", VNum (num 70));
                   (js "rubric", VObj []);
                   (js "strengths", VArr [VStr (js "Clear structure")]);
                   (js "weaknesses", VArr []);
                   (js "suggestions", VArr []);
                   (js "inline_comments", VArr []);
                   (js "totalScaled", VNum (num 11));
                   (js "maxMarks", VNum (num 15))])) |}
       _ _))) eq_refl).
  vm_compute. reflexivity.
Defined.

Lemma unreadable_body_witness :
  fst (Part000.handler Fixture.apiKey (Fixture.answering (js "{}"))
         Fixture.prompt garbledEvent init)
  = Ok {| statusCode := 500; headers := [];
          body := VStr (js "Unexpected token in JSON") |}.
Proof.
  rewrite (FailureFacts.unreadable_body_answers_500 (B := Fixture.engine)
             (Fixture.answering (js "{}")) Fixture.prompt Fixture.apiKey
             garbledEvent Runs.syntaxError init eq_refl eq_refl eq_refl).
  reflexivity.
Defined.

Lemma null_body_witness :
  fst (Part000.handler Fixture.apiKey (Fixture.answering (js "{}"))
         Fixture.prompt nullEvent init)
  = Ok {| statusCode := 500; headers := [];
          body := VStr (js "TypeError: question") |}.
Proof.
  rewrite (FailureFacts.null_body_answers_500 (B := Fixture.engine)
             (Fixture.answering (js "{}")) Fixture.prompt Fixture.apiKey
             nullEvent init eq_refl eq_refl eq_refl).
  reflexivity.
Defined.

Lemma upstream_rejection_witness :
  fst (Part000.handler Fixture.apiKey Desk.rejecting Fixture.prompt
         (Fixture.postEvent Fixture.bodyFifteen) init)
  = Ok {| statusCode := 500; headers := [];
          body := VStr (js "429 Rate limit reached") |}.
Proof.
  assert (Hevent : Part000.parseBody (Fixture.postEvent Fixture.bodyFifteen)
                   = Ok Fixture.bodyFifteen) by (vm_compute; reflexivity).
  assert (Hcontent :
    Part000.userContent (prop Fixture.bodyFifteen (js "question"))
      (prop Fixture.bodyFifteen (js "examType"))
      (prop Fixture.bodyFifteen (js "timeLimit"))
      (prop Fixture.bodyFifteen (js "maxMarks"))
      (Part000.orEmptyArray (prop Fixture.bodyFifteen (js "texts")))
      (Part000.orEmptyArray (prop Fixture.bodyFifteen (js "images")))
    = Ok (Runs.contentOf Fixture.bodyFifteen)) by (vm_compute; reflexivity).
  rewrite (FailureFacts.upstream_rejection_answers_500 (B := Fixture.engine)
             Desk.rejecting Fixture.prompt Fixture.apiKey
             (Fixture.postEvent Fixture.bodyFifteen) Fixture.bodyFifteen
             (Runs.contentOf Fixture.bodyFifteen)
             (Fixture.message (js "429 Rate limit reached")) init
             eq_refl eq_refl Hevent eq_refl eq_refl Hcontent eq_refl).
  reflexivity.
Defined.

End FailureWitnesses.

(* ================================================================== *)
(** ** The size of the request to the model *)
(* ================================================================== *)

Module RequestFacts.
Import JS Outcome Measures HandlerFacts.
Local Open Scope js_scope.

Lemma codePoints_length (s : jsstring) :
  (List.length (codePoints s) <= List.length s)%nat.
Proof.
  induction s as [|c rest IH]; [apply Nat.le_refl|].
  cbn [codePoints]. destruct rest as [|d rest']; [apply Nat.le_refl|].
  destruct (isHighSurrogate c && isLowSurrogate d).
  - destruct (codePoints (d :: rest')) as [|x tail]; simpl in *; lia.
  - simpl in *. lia.
Qed.

Lemma mapM_length {A C} (f : A -> result C) (l : list A) (out : list C) :
  mapM f l = Ok out -> List.length out = List.length l.
Proof.
  revert out. induction l as [|x l IH]; simpl; intros out H.
  - injection H as <-. reflexivity.
  - unfold rbind in H. destruct (f x); [|discriminate].
    destruct (mapM f l) as [ys|]; [|discriminate].
    injection H as <-. simpl. rewrite (IH ys eq_refl). reflexivity.
Qed.

Lemma mapM_forall {A C} (P : C -> Prop) (f : A -> result C) (l : list A)
    (out : list C) :
  (forall x y, f x = Ok y -> P y) -> mapM f l = Ok out -> Forall P out.
Proof.
  intro Hf. revert out. induction l as [|x l IH]; simpl; intros out H.
  - injection H as <-. constructor.
  - unfold rbind in H. destruct (f x) as [y|] eqn:E; [|discriminate].
    destruct (mapM f l) as [ys|]; [|discriminate].
    injection H as <-. constructor; [exact (Hf x y E)|apply IH; reflexivity].
Qed.

Lemma filter_all {A} (p : A -> bool) (l : list A) :
  Forall (fun x => p x = true) l -> List.filter p l = l.
Proof.
  induction 1 as [|x l Hx _ IH]; simpl; [reflexivity|]. rewrite Hx, IH. reflexivity.
Qed.

Section Requests.
Context {B : Builtins}.

Lemma iterate_slice_length (images first12 : value) (imgs : list value) :
  slice images 12 = Ok first12 -> iterate first12 = Ok imgs ->
  (List.length imgs <= 12)%nat.
Proof.
  destruct images as [| | | |s|items|]; unfold slice; try discriminate;
    intro H; injection H as <-;
    unfold iterate; intro H; injection H as <-.
  - rewrite length_map. etransitivity; [apply codePoints_length|].
    change (List.length (firstn 12 s) <= 12)%nat. rewrite length_firstn. lia.
  - change (List.length (firstn 12 items) <= 12)%nat. rewrite length_firstn. lia.
Qed.

(** X6.  The user message of the request has at most 15 parts, of which
    at most 12 are images, whatever the number of images in the body: the
    question part, at most one part of compiled text, at most 12 image
    parts and the OCR instruction. *)
Theorem request_is_bounded
    (question examType timeLimit maxMarks texts images : value)
    (content : list value) :
  Part000.userContent question examType timeLimit maxMarks texts images
  = Ok content ->
  (1 <= List.length content <= 15)%nat
  /\ (List.length (List.filter isImagePart content) <= 12)%nat.
Proof.
  unfold Part000.userContent, rbind.
  destruct (Part000.questionText _ _ _ _) as [first|]; [|discriminate].
  destruct (getProp texts (js "length")) as [tlen|]; [|discriminate].
  assert (T : forall t, isImagePart (Part000.textPart t) = false)
    by reflexivity.
  assert (C : forall c1,
             (if ToBoolean tlen
              then match Array_map texts Part000.sourceBlock with
                   | Ok parts =>
                       Ok ([Part000.textPart first]
                           ++ [Part000.textPart
                                 (Part000.trimmed (join Part000.nl parts))])
                   | Throw e => Throw e
                   end
              else Ok [Part000.textPart first]) = Ok c1 ->
             (1 <= List.length c1 <= 2)%nat
             /\ List.filter isImagePart c1 = []).
  { intro c1. destruct (ToBoolean tlen).
    - destruct (Array_map texts Part000.sourceBlock); [|discriminate].
      intro H. injection H as <-. split; [simpl; lia|reflexivity].
    - intro H. injection H as <-. split; [simpl; lia|reflexivity]. }
  destruct (if ToBoolean tlen then _ else _) as [c1|]; [|discriminate].
  destruct (C c1 eq_refl) as [Hlen Hnone]. clear C.
  destruct (getProp images (js "length")) as [ilen|]; [|discriminate].
  destruct (ToBoolean ilen).
  - destruct (slice images 12) as [first12|] eqn:Hs; [|discriminate].
    destruct (iterate first12) as [imgs|] eqn:Hi; [|discriminate].
    destruct (mapM _ imgs) as [pushed|] eqn:Hm; [|discriminate].
    intro H. injection H as <-.
    assert (Hp : (List.length pushed <= 12)%nat).
    { rewrite (mapM_length _ _ _ Hm). exact (iterate_slice_length _ _ _ Hs Hi). }
    assert (Hall : Forall (fun part => isImagePart part = true) pushed).
    { refine (mapM_forall _ _ _ _ _ Hm). intros img part.
      destruct (getProp img (js "dataUrl")); [|discriminate].
      intro H. injection H as <-. reflexivity. }
    rewrite !filter_app, !length_app, Hnone, (filter_all _ _ Hall).
    cbn [List.filter]. rewrite T. cbn [List.length app]. lia.
  - intro H. injection H as <-. rewrite Hnone. simpl. lia.
Qed.


End Requests.
End RequestFacts.

Module RequestWitnesses.
Import JS Outcome Measures Fixture.

(** A body with twenty images: twelve are forwarded. *)
Lemma request_is_bounded_witness :
  (1 <= List.length (Runs.contentOf Desk.bodyManyImages) <= 15)%nat
  /\ (List.length (List.filter isImagePart (Runs.contentOf Desk.bodyManyImages))
      <= 12)%nat.
Proof.
  apply (RequestFacts.request_is_bounded
           (prop Desk.bodyManyImages (js "question"))
           (prop Desk.bodyManyImages (js "examType"))
           (prop Desk.bodyManyImages (js "timeLimit"))
           (prop Desk.bodyManyImages (js "maxMarks"))
           (Part000.orEmptyArray (prop Desk.bodyManyImages (js "texts")))
           (Part000.orEmptyArray (prop Desk.bodyManyImages (js "images")))).
  vm_compute. reflexivity.
Defined.

End RequestWitnesses.
(* ================================================================== *)
(** ** The score as a function of the raw score *)
(* ================================================================== *)

Module ScoreFacts.
Import JS NumberFacts.
Local Open Scope js_scope.

Lemma Qfloor_between (x : Q) (k : Z) :
  (inject_Z k <= x)%Q -> (x < inject_Z (k + 1))%Q -> Qfloor x = k.
Proof.
  intros Lo Hi.
  assert (A : k <= Qfloor x).
  { rewrite <- (Qfloor_Z k). apply Qfloor_resp_le. exact Lo. }
  assert (F := Qfloor_le x).
  assert (K : (inject_Z (Qfloor x) < inject_Z (k + 1))%Q) by lra.
  rewrite <- Zlt_Qlt in K. lia.
Qed.

(** The clamp of a number, as a rational. *)
Lemma clamp_number {B : Builtins} (n : number) :
  isNaN n = false ->
  exists c, Evaluate.clampNumber (VNum n) (num 0) (num 100) = Ok (Fin c)
            /\ (0 <= c)%Q /\ (c <= 100)%Q
            /\ match n with
               | Fin q => (q <= 0 -> c == 0)%Q /\ (100 <= q -> c == 100)%Q
                          /\ (0 <= q -> q <= 100 -> c == q)%Q
               | PosInf => (c == 100)%Q
               | _ => (c == 0)%Q
               end.
Proof.
  destruct n as [| | |q]; try discriminate; intros _;
    unfold Evaluate.clampNumber, rbind; simpl.
  - exists (inject_Z 100). unfold inject_Z. repeat split; lra.
  - exists (inject_Z 0). unfold inject_Z. repeat split; lra.
  - destruct (Qlt_bool q (inject_Z 100)) eqn:L; simpl.
    + apply Qlt_bool_iff in L.
      destruct (Qlt_bool (inject_Z 0) q) eqn:G.
      * apply Qlt_bool_iff in G. exists q.
        unfold inject_Z in *. repeat split; intros; lra.
      * apply Qlt_bool_false_iff in G. exists (inject_Z 0).
        unfold inject_Z in *. repeat split; intros; lra.
    + apply Qlt_bool_false_iff in L. exists (inject_Z 100).
      unfold inject_Z in *. repeat split; intros; lra.
Qed.


(** X9.  The total is the whole number nearest to the product the engine
    has computed, a half going up, and that product has been rounded
    twice.  A raw score of 0 gives 0, and a raw score of 100 gives the
    marks themselves when they are a whole number below [2^53].  Because
    of the roundings the total can differ from the one of exact
    arithmetic: 29 out of 100 on 50 marks is 14.5 exactly, the product
    computed is [8162774324609023 / 2^49], just below, and the total is
    14. *)
Theorem total_rounds_binary64_product :
  (forall q m x,
      fmul (fdiv (Fin q) (num 100)) (Fin m) = Fin x ->
      exists k,
        Part000.scaled (Fin q) (Fin m) = num k
        /\ (x - (1 # 2) < inject_Z k)%Q
        /\ (inject_Z k <= x + (1 # 2))%Q)
  /\ (forall m, Part000.scaled (num 0) (Fin m) = num 0)
  /\ (forall z, 0 <= z < 2 ^ 53 -> Part000.scaled (num 100) (num z) = num z)
  /\ fmul (fdiv (num 29) (num 100)) (num 50)
     = Fin (8162774324609023 # 562949953421312)
  /\ Part000.scaled (num 29) (num 50) = num 14
  /\ Spec.total 29 (inject_Z 50) = 15.
Proof.
  split; [|split; [|split; [|split; [|split]]]].
  - intros q m x E. unfold Part000.scaled. rewrite E.
    eexists. split; [reflexivity|].
    set (y := (x + (1 # 2))%Q).
    pose proof (Qfloor_le y) as Lo. pose proof (Qlt_floor y) as Hi.
    rewrite inject_Z_plus in Hi. change (inject_Z 1) with 1%Q in Hi.
    split; [|exact Lo]. unfold y in *. lra.
  - intro m. unfold Part000.scaled.
    change (fdiv (num 0) (num 100)) with (Fin 0).
    change (fmul (Fin 0) (Fin m)) with (binary64 (Qmult 0 m)).
    assert (E : (0 * m == 0)%Q) by lra.
    rewrite (RoundingFacts.binary64_comp _ _ E). reflexivity.
  - intros z Hz. unfold Part000.scaled.
    replace (fdiv (num 100) (num 100)) with (Fin 1) by (vm_compute; reflexivity).
    change (fmul (Fin 1) (num z)) with (binary64 (Qmult 1 (inject_Z z))).
    assert (E : (1 * inject_Z z == inject_Z z)%Q) by lra.
    rewrite (RoundingFacts.binary64_comp _ _ E).
    rewrite (RoundingFacts.binary64_whole z Hz).
    unfold num at 1. cbn [Math_round]. f_equal.
    apply Qfloor_between.
    + lra.
    + rewrite inject_Z_plus. change (inject_Z 1) with 1%Q. lra.
  - vm_compute. reflexivity.
  - vm_compute. reflexivity.
  - vm_compute. reflexivity.
Qed.

(** The clamps of two numbers in order are in order. *)
Lemma clamped_in_order {B : Builtins} (n n' : number) :
  num_leb n n' = true ->
  exists c c',
    Part000.clamp (VNum n) (num 0) (num 100) = Ok (Fin c)
    /\ Part000.clamp (VNum n') (num 0) (num 100) = Ok (Fin c')
    /\ (0 <= c)%Q /\ (c <= c')%Q /\ (c' <= 100)%Q.
Proof.
  intro Hle.
  assert (Hn : isNaN n = false) by (destruct n; try reflexivity; discriminate).
  assert (Hn' : isNaN n' = false)
    by (destruct n, n'; try reflexivity; discriminate).
  destruct (clamp_number n Hn) as (c & Hc & C0 & C100 & Cn).
  destruct (clamp_number n' Hn') as (c' & Hc' & C0' & C100' & Cn').
  exists c, c'. split; [exact Hc|]. split; [exact Hc'|].
  split; [exact C0|]. split; [|exact C100'].
  destruct n as [| | |q], n' as [| | |q']; try discriminate; try lra.
  simpl in Hle. apply Qle_bool_iff in Hle.
  destruct Cn as (A1 & A2 & A3), Cn' as (B1 & B2 & B3).
  destruct (Qlt_le_dec q 0); destruct (Qlt_le_dec 100 q);
    destruct (Qlt_le_dec q' 0); destruct (Qlt_le_dec 100 q');
    try (rewrite A1 by lra); try (rewrite A2 by lra);
    try (rewrite A3 by lra); try (rewrite B1 by lra);
    try (rewrite B2 by lra); try (rewrite B3 by lra); lra.
Qed.

(** X24.  With the arithmetic of the engine, too, a higher raw score
    never gives a lower total: for two numbers [n <= n'] and marks
    [m >= 0] that are a binary64 number, the clamped scores and the totals
    [Math.round((c / 100) * m)] are in the same order. *)
Theorem higher_raw_score_never_lowers_rounded_total {B : Builtins}
    (n n' : number) (m : Q) :
  num_leb n n' = true ->
  (0 <= m)%Q ->
  binary64 m = Fin m ->
  exists c c' k k',
    Part000.clamp (VNum n) (num 0) (num 100) = Ok (Fin c)
    /\ Part000.clamp (VNum n') (num 0) (num 100) = Ok (Fin c')
    /\ (c <= c')%Q
    /\ Part000.scaled (Fin c) (Fin m) = num k
    /\ Part000.scaled (Fin c') (Fin m) = num k'
    /\ k <= k'.
Proof.
  intros Hle Hm Hb.
  destruct (clamped_in_order n n' Hle) as (c & c' & Hc & Hc' & C0 & Hcc & C100).
  destruct (ScaleFacts.scaled_monotone c c' m C0 Hcc C100 Hm Hb)
    as (k & k' & Hk & Hk' & Hkk).
  exists c, c', k, k'. repeat split; assumption.
Qed.

End ScoreFacts.

Module ScoreWitnesses.
Import JS Fixture.


(** Raw scores 29 and 30 on 50 marks. *)
Lemma higher_raw_score_rounded_witness :
  exists c c' k k',
    Part000.clamp (VNum (num 29)) (num 0) (num 100) = Ok (Fin c)
    /\ Part000.clamp (VNum (num 30)) (num 0) (num 100) = Ok (Fin c')
    /\ (c <= c')%Q
    /\ Part000.scaled (Fin c) (Fin (inject_Z 50)) = num k
    /\ Part000.scaled (Fin c') (Fin (inject_Z 50)) = num k'
    /\ k <= k'.
Proof.
  apply (ScoreFacts.higher_raw_score_never_lowers_rounded_total
           (num 29) (num 30) (inject_Z 50)).
  - reflexivity.
  - unfold inject_Z. unfold Qle. simpl. lia.
  - vm_compute. reflexivity.
Defined.

(** A raw score of 100 on 15 marks gives 15. *)
Lemma full_marks_witness : Part000.scaled (num 100) (num 15) = num 15.
Proof.
  apply (proj1 (proj2 (proj2 ScoreFacts.total_rounds_binary64_product)) 15).
  lia.
Defined.

End ScoreWitnesses.

(* ================================================================== *)
(** ** The client: which files are taken, and what each one adds *)
(* ================================================================== *)

Module FileFacts.
Import JS App Client.
Local Open Scope js_scope.

Lemma startsWith_prefix (p t : jsstring) : startsWith (p ++ t) p = true.
Proof.
  induction p as [|x p IH]; simpl; [destruct t; reflexivity|].
  rewrite N.eqb_refl. exact IH.
Qed.

Lemma startsWith_inv (s p : jsstring) :
  startsWith s p = true -> exists t, s = p ++ t.
Proof.
  revert s. induction p as [|x p IH]; intros s H.
  - exists s. reflexivity.
  - destruct s as [|y s]; [discriminate|]. simpl in H.
    apply andb_true_iff in H. destruct H as [Hx Hs].
    apply N.eqb_eq in Hx. destruct (IH s Hs) as [t Ht].
    exists t. simpl. congruence.
Qed.

Lemma endsWith_suffix (q p : jsstring) : endsWith (q ++ p) p = true.
Proof. unfold endsWith. rewrite rev_app_distr. apply startsWith_prefix. Qed.

Lemma endsWith_inv (s p : jsstring) :
  endsWith s p = true -> exists q, s = q ++ p.
Proof.
  unfold endsWith. intro H. apply startsWith_inv in H. destruct H as [t Ht].
  exists (rev t). rewrite <- (rev_involutive s), Ht, rev_app_distr.
  rewrite rev_involutive. reflexivity.
Qed.

Lemma lastSegment_no_dot (s : jsstring) :
  existsb (N.eqb 46) s = false -> lastSegment s = s.
Proof.
  destruct s as [|c s]; [reflexivity|]. cbn [lastSegment existsb]. intro H.
  apply orb_false_iff in H. destruct H as [Hc Hs].
  rewrite Hs. rewrite N.eqb_sym, Hc. reflexivity.
Qed.

Lemma lastSegment_after_dot (p e : jsstring) :
  existsb (N.eqb 46) e = false -> lastSegment (p ++ 46%N :: e) = e.
Proof.
  intro He. induction p as [|c p IH]; cbn [lastSegment app].
  - rewrite He, N.eqb_refl. reflexivity.
  - rewrite existsb_app. cbn [existsb]. rewrite N.eqb_refl, orb_true_r.
    exact IH.
Qed.

Lemma lastSegment_shape (s : jsstring) :
  (existsb (N.eqb 46) s = false /\ lastSegment s = s)
  \/ exists p, s = p ++ 46%N :: lastSegment s.
Proof.
  induction s as [|c s IH]; [left; split; reflexivity|].
  cbn [lastSegment existsb].
  destruct (existsb (N.eqb 46) s) eqn:Hs.
  - right. destruct IH as [[E _]|[p E]]; [discriminate|].
    exists (c :: p). simpl. f_equal. exact E.
  - destruct (N.eqb c 46) eqn:Hc.
    + apply N.eqb_eq in Hc. subst c. right. exists []. reflexivity.
    + left. rewrite N.eqb_sym, Hc. split; reflexivity.
Qed.

(** X10.  [split(".").pop()] on a name gives the extension [e] (a string
    without a dot) exactly when the name is [e] itself or ends with a dot
    followed by [e]: the test of the loop, [ext === "pdf"], and the test
    of [isAllowed], [endsWith(".pdf")], differ only on the bare name. *)
Theorem extension_is_last_segment (s e : jsstring) :
  existsb (N.eqb 46) e = false ->
  lastSegment s = e <-> s = e \/ endsWith s (46%N :: e) = true.
Proof.
  intro He. split.
  - intro H. destruct (lastSegment_shape s) as [[_ E]|[p E]].
    + left. congruence.
    + right. rewrite E, H. apply endsWith_suffix.
  - intros [H|H].
    + subst s. apply lastSegment_no_dot, He.
    + apply endsWith_inv in H. destruct H as [q Hq]. subst s.
      apply lastSegment_after_dot, He.
Qed.

Section Files.
Context {B : Builtins}.
Variable toLowerCase : jsstring -> jsstring.

Let empty : Payload := {| texts := []; images := [] |}.

(** What a file adds does not depend on what is there already. *)
Lemma processFile_adds (f : File) (p : Payload) :
  processFile toLowerCase f p =
  match processFile toLowerCase f empty with
  | Ok d => Ok {| texts := texts p ++ texts d; images := images p ++ images d |}
  | Throw e => Throw e
  end.
Proof.
  destruct p as [ts ims].
  unfold processFile, rbind, pdfBranch; simpl.
  repeat match goal with
         | |- context [if ?c then _ else _] => destruct c
         | |- context [match ?r with Ok _ => _ | Throw _ => _ end] =>
             match r with
             | dataURL _ => destruct r
             | pdf _ => destruct r
             | docx _ => destruct r
             | zip _ => destruct r
             end
         end; simpl; rewrite ?app_nil_r; reflexivity.
Qed.

(** One file adds one text, or up to eight images, never both. *)
Lemma processFile_bound (f : File) (d : Payload) :
  processFile toLowerCase f empty = Ok d ->
  (8 * List.length (texts d) + List.length (images d) <= 8)%nat.
Proof.
  unfold processFile, rbind, pdfBranch.
  repeat match goal with
         | |- context [if ?c then _ else _] => destruct c
         | |- context [match ?r with Ok _ => _ | Throw _ => _ end] =>
             match r with
             | dataURL _ => destruct r
             | pdf _ => destruct r
             | docx _ => destruct r
             | zip _ => destruct r
             end
         end; intro H; try discriminate; injection H as <-; simpl; try lia.
  rewrite length_map, length_firstn. lia.
Qed.

Lemma processFiles_adds (fs : list File) (p : Payload) :
  processFiles toLowerCase fs p =
  match mapM (fun f => processFile toLowerCase f empty) fs with
  | Ok parts =>
      Ok {| texts := texts p ++ List.concat (List.map texts parts);
            images := images p ++ List.concat (List.map images parts) |}
  | Throw e => Throw e
  end.
Proof.
  revert p. induction fs as [|f fs IH]; intro p.
  - simpl. rewrite !app_nil_r. destruct p; reflexivity.
  - cbn [processFiles mapM]. unfold rbind at 1 2.
    rewrite (processFile_adds f p).
    destruct (processFile toLowerCase f empty) as [d|e]; [|reflexivity].
    rewrite IH. cbn [texts images].
    fold (mapM (fun f => processFile toLowerCase f empty)).
    destruct (mapM (fun f => processFile toLowerCase f empty) fs) as [parts|e];
      [|reflexivity].
    simpl. rewrite !app_assoc. reflexivity.
Qed.

Lemma collect_parts (files : list File) :
  collect toLowerCase files =
  match mapM (fun f => processFile toLowerCase f empty) (firstn 10 files) with
  | Ok parts =>
      Ok {| texts := List.concat (List.map texts parts);
            images := List.concat (List.map images parts) |}
  | Throw e => Throw e
  end.
Proof. unfold collect. rewrite processFiles_adds. reflexivity. Qed.

(** X11.  What the loop collects is what each of the first ten files
    adds on its own, in the order of the files: the texts are the
    concatenation of the texts of each file and the images that of the
    images, and the loop succeeds exactly when each of these files can be
    read. *)
Theorem files_contribute_independently (files : list File) (p : Payload) :
  collect toLowerCase files = Ok p <->
  exists parts,
    mapM (fun f => processFile toLowerCase f {| texts := []; images := [] |})
         (firstn 10 files) = Ok parts
    /\ p = {| texts := List.concat (List.map texts parts);
              images := List.concat (List.map images parts) |}.
Proof.
  rewrite collect_parts. fold empty.
  destruct (mapM (fun f => processFile toLowerCase f empty) (firstn 10 files))
    as [parts|e].
  - split.
    + intro H. injection H as <-. exists parts. split; reflexivity.
    + intros [parts' [H ->]]. injection H as <-. reflexivity.
  - split; [discriminate|]. intros [parts' [H _]]. discriminate.
Qed.

Lemma parts_bound (fs : list File) (parts : list Payload) :
  mapM (fun f => processFile toLowerCase f empty) fs = Ok parts ->
  (8 * List.length (List.concat (List.map texts parts))
   + List.length (List.concat (List.map images parts))
   <= 8 * List.length fs)%nat.
Proof.
  revert parts. induction fs as [|f fs IH]; intros parts H.
  - injection H as <-. simpl. lia.
  - cbn [mapM] in H. unfold rbind at 1 in H.
    destruct (processFile toLowerCase f empty) as [d|e] eqn:Hd; [|discriminate].
    fold (mapM (fun f => processFile toLowerCase f empty)) in H.
    unfold rbind in H.
    destruct (mapM (fun f => processFile toLowerCase f empty) fs) as [ds|e];
      [|discriminate].
    injection H as <-. specialize (IH ds eq_refl).
    apply processFile_bound in Hd.
    cbn [List.map List.concat List.length]. rewrite !length_app. lia.
Qed.

(** X12.  The payload of the client is bounded: whatever the files, a
    payload that is collected holds at most ten texts and eighty images,
    and each text takes the place of eight images:
    [8 * texts + images <= 80]. *)
Theorem payload_is_bounded (files : list File) (p : Payload) :
  collect toLowerCase files = Ok p ->
  (8 * List.length (texts p) + List.length (images p) <= 80)%nat.
Proof.
  rewrite collect_parts.
  destruct (mapM (fun f => processFile toLowerCase f empty) (firstn 10 files))
    as [parts|e] eqn:Hp; [|discriminate].
  intro H. injection H as <-. apply parts_bound in Hp. cbn [texts images].
  pose proof (firstn_le_length 10 files). lia.
Qed.


Lemma mapM_throws {A C} (f : A -> result C) (l : list A) :
  (exists e, mapM f l = Throw e) <-> exists x e, In x l /\ f x = Throw e.
Proof.
  induction l as [|x l IH].
  - split; [intros [e H]; discriminate|intros (x & e & [] & _)].
  - cbn [mapM]. fold (mapM f). unfold rbind at 1.
    destruct (f x) as [y|e] eqn:Hx.
    + unfold rbind. destruct (mapM f l) as [ys|e] eqn:Hl.
      * split; [intros [e H]; discriminate|].
        intros (x' & e & [<-|Hin] & H); [congruence|].
        destruct IH as [_ IH]. destruct IH as [e' He'].
        { exists x', e. split; assumption. }
        discriminate.
      * split; [|intros _; exists e; reflexivity].
        intros _. destruct IH as [IH _]. destruct IH as (x' & e' & Hin & H).
        { exists e. reflexivity. }
        exists x', e'. split; [right; exact Hin|exact H].
    + split; [|intros _; exists e; reflexivity].
      intros _. exists x, e. split; [left; reflexivity|exact Hx].
Qed.

(** X13.  One file that cannot be read is enough for nothing to be
    collected: the loop fails exactly when one of the first ten files
    fails on its own, whatever the other files are; a file after the
    tenth is never read. *)
Theorem unreadable_file_aborts (files : list File) :
  (exists e, collect toLowerCase files = Throw e)
  <-> exists f e,
        In f (firstn 10 files)
        /\ processFile toLowerCase f {| texts := []; images := [] |} = Throw e.
Proof.
  rewrite collect_parts. fold empty.
  rewrite <- (mapM_throws (fun f => processFile toLowerCase f empty)).
  destruct (mapM (fun f => processFile toLowerCase f empty) (firstn 10 files))
    as [parts|e].
  - split; intros [e H]; discriminate.
  - split; intros _; exists e; reflexivity.
Qed.

(** X14.  A file can be accepted and then ignored: a file whose type is
    one of the three document types is accepted by [isAllowed] whatever
    its name, but the loop chooses the extractor by the name alone, and a
    name without one of the three extensions adds nothing to the
    payload. *)
Theorem accepted_by_type_ignored_by_name (f : File) (p : Payload) :
  In (type f)
     [js "application/pdf";
      js "application/vnd.openxmlformats-officedocument.wordprocessingml.document";
      js "application/vnd.openxmlformats-officedocument.presentationml.presentation"] ->
  ~ In (ext toLowerCase f) [js "pdf"; js "docx"; js "pptx"] ->
  isAllowed toLowerCase f = true /\ processFile toLowerCase f p = Ok p.
Proof.
  intros Ht He.
  assert (E1 : str_eqb (ext toLowerCase f) (js "pdf") = false).
  { apply AnswerFacts.str_eqb_neq. intro E. apply He. rewrite E. simpl. tauto. }
  assert (E2 : str_eqb (ext toLowerCase f) (js "docx") = false).
  { apply AnswerFacts.str_eqb_neq. intro E. apply He. rewrite E. simpl. tauto. }
  assert (E3 : str_eqb (ext toLowerCase f) (js "pptx") = false).
  { apply AnswerFacts.str_eqb_neq. intro E. apply He. rewrite E. simpl. tauto. }
  unfold isAllowed, processFile. rewrite E1, E2, E3.
  destruct Ht as [<-|[<-|[<-|[]]]]; split; reflexivity.
Qed.

(** X15.  [handleFiles] keeps what was listed and appends the allowed
    files of the drop in their order, nothing else: no file is removed,
    none is listed twice by it, the list is not cut to ten here, and each
    refused file raises one alert with its name. *)
Theorem handleFiles_appends_allowed
    (fileListObj files : list File) (alerts : list jsstring) :
  handleFiles toLowerCase fileListObj files alerts =
  (files ++ List.filter (isAllowed toLowerCase) fileListObj,
   alerts ++ List.map (fun f => js "Unsupported: " ++ name f)
                      (List.filter (fun f => negb (isAllowed toLowerCase f))
                                   fileListObj)).
Proof.
  revert files alerts.
  induction fileListObj as [|f rest IH]; intros files alerts.
  - simpl. rewrite !app_nil_r. reflexivity.
  - cbn [handleFiles List.filter].
    destruct (isAllowed toLowerCase f); cbn [negb]; rewrite IH.
    + rewrite <- app_assoc. reflexivity.
    + cbn [List.map]. rewrite <- app_assoc. reflexivity.
Qed.

(** X16.  The two checks of the click handler let a request through
    exactly when the trimmed question is not empty and the marks box
    holds a number above 0 ([Infinity] included); what they let through
    has a truthy question and truthy marks, which is what the handlers
    require. *)
Theorem client_checks_pass_iff (questionBox maxMarksBox : jsstring) :
  check questionBox maxMarksBox = None <->
  trim questionBox <> []
  /\ maxMarksBox <> []
  /\ (String_toNumber maxMarksBox = PosInf
      \/ exists x, String_toNumber maxMarksBox = Fin x /\ (0 < x)%Q).
Proof.
  unfold check.
  destruct (trim questionBox) as [|c q] eqn:Hq; cbn [ToBoolean negb].
  - split; [discriminate|]. intros [H _]. congruence.
  - destruct maxMarksBox as [|d m].
    + split; [discriminate|]. intros (_ & H & _). congruence.
    + destruct (String_toNumber (d :: m)) as [| | |x]; cbn.
      * split; [discriminate|]. intros (_ & _ & [H|(x & H & _)]); discriminate.
      * split; [|reflexivity]. intros _.
        split; [discriminate|]. split; [discriminate|]. left. reflexivity.
      * split; [discriminate|]. intros (_ & _ & [H|(x & H & _)]); discriminate.
      * unfold Qis_zero.
        destruct (Z.eqb_spec (Qnum x) 0) as [Z0|Z0]; cbn [negb orb].
        -- split; [discriminate|].
           intros (_ & _ & [H|(x' & H & Hx)]); [discriminate|].
           injection H as <-. unfold Qlt in Hx. simpl in Hx. lia.
        -- destruct (Qle_bool x (inject_Z 0)) eqn:Hle.
           ++ split; [discriminate|].
              intros (_ & _ & [H|(x' & H & Hx)]); [discriminate|].
              injection H as <-. apply Qle_bool_iff in Hle.
              unfold inject_Z in Hle. lra.
           ++ split; [|reflexivity]. intros _.
              split; [discriminate|]. split; [discriminate|]. right.
              exists x. split; [reflexivity|].
              apply Qnot_le_lt. intro H. apply Qle_bool_iff in H.
              unfold inject_Z in *. congruence.
Qed.

End Files.
End FileFacts.

Module FileWitnesses.
Import JS App Client Fixture Desk.

(** [Report.Final.PDF], lower-cased, has the extension [pdf]. *)
Lemma extension_witness :
  lastSegment (js "report.final.pdf") = js "pdf"
  <-> js "report.final.pdf" = js "pdf"
      \/ endsWith (js "report.final.pdf") (46%N :: js "pdf") = true.
Proof.
  apply (FileFacts.extension_is_last_segment (js "report.final.pdf") (js "pdf")).
  reflexivity.
Defined.

(** A photo, a DOCX, a scanned page and a deck: three texts or images
    each in its place. *)
Lemma payload_is_bounded_witness :
  exists p,
    collect asciiLower [photo; essay; scan; slides] = Ok p
    /\ (8 * List.length (texts p) + List.length (images p) <= 80)%nat.
Proof.
  eexists. split; [vm_compute; reflexivity|].
  apply (FileFacts.payload_is_bounded asciiLower [photo; essay; scan; slides]).
  vm_compute. reflexivity.
Defined.

(** The PDF without an extension in its name. *)
Lemma accepted_ignored_witness :
  isAllowed asciiLower untitled = true
  /\ processFile asciiLower untitled {| texts := []; images := [] |}
     = Ok {| texts := []; images := [] |}.
Proof.
  apply (FileFacts.accepted_by_type_ignored_by_name asciiLower untitled).
  - left. reflexivity.
  - vm_compute. intros [H|[H|[H|[]]]]; discriminate.
Defined.

End FileWitnesses.

(* ================================================================== *)
(** ** The client: what is shown of the feedback *)
(* ================================================================== *)

Module RenderFacts.
Import JS Client.
Local Open Scope js_scope.

Lemma escapeChar_cases (c : char) :
  (c = 38%N /\ escapeChar c = [38; 97; 109; 112; 59]%N)
  \/ (c = 60%N /\ escapeChar c = [38; 108; 116; 59]%N)
  \/ (c = 62%N /\ escapeChar c = [38; 103; 116; 59]%N)
  \/ (c = 34%N /\ escapeChar c = [38; 113; 117; 111; 116; 59]%N)
  \/ (c = 39%N /\ escapeChar c = [38; 35; 51; 57; 59]%N)
  \/ (c <> 38%N /\ c <> 60%N /\ c <> 62%N /\ c <> 34%N /\ c <> 39%N
      /\ escapeChar c = [c]).
Proof.
  unfold escapeChar.
  destruct (N.eqb_spec c 38) as [->|H1]; [left; split; reflexivity|].
  destruct (N.eqb_spec c 60) as [->|H2]; [right; left; split; reflexivity|].
  destruct (N.eqb_spec c 62) as [->|H3];
    [right; right; left; split; reflexivity|].
  destruct (N.eqb_spec c 34) as [->|H4];
    [right; right; right; left; split; reflexivity|].
  destruct (N.eqb_spec c 39) as [->|H5];
    [right; right; right; right; left; split; reflexivity|].
  repeat right. repeat split; assumption.
Qed.

(** X17.  An escaped text carries no markup: none of the two angle
    brackets and of the two quotes is left in it, whatever the text. *)
Theorem escaped_text_has_no_markup (s : jsstring) :
  existsb (fun c => N.eqb c 60 || N.eqb c 62 || N.eqb c 34 || N.eqb c 39)
          (escapeText s) = false.
Proof.
  unfold escapeText. induction s as [|c s IH]; [reflexivity|].
  cbn [List.map List.concat]. rewrite existsb_app.
  apply orb_false_iff. split; [|exact IH].
  destruct (escapeChar_cases c)
    as [[_ E]|[[_ E]|[[_ E]|[[_ E]|[[_ E]|(_ & H2 & H3 & H4 & H5 & E)]]]]];
    rewrite E; try reflexivity.
  cbn [existsb]. apply N.eqb_neq in H2, H3, H4, H5.
  rewrite H2, H3, H4, H5. reflexivity.
Qed.

(** X18.  Escaping loses nothing: two texts with the same escaped form
    are the same text. *)
Theorem escaped_text_determines_text (s t : jsstring) :
  escapeText s = escapeText t -> s = t.
Proof.
  unfold escapeText. revert t.
  induction s as [|a s IH]; intros [|b t] H.
  - reflexivity.
  - exfalso. cbn [List.map List.concat] in H.
    destruct (escapeChar_cases b)
      as [[_ E]|[[_ E]|[[_ E]|[[_ E]|[[_ E]|(_ & _ & _ & _ & _ & E)]]]]];
      rewrite E in H; discriminate.
  - exfalso. cbn [List.map List.concat] in H.
    destruct (escapeChar_cases a)
      as [[_ E]|[[_ E]|[[_ E]|[[_ E]|[[_ E]|(_ & _ & _ & _ & _ & E)]]]]];
      rewrite E in H; discriminate.
  - cbn [List.map List.concat] in H.
    destruct (escapeChar_cases a)
      as [[A E]|[[A E]|[[A E]|[[A E]|[[A E]|(A1 & A2 & A3 & A4 & A5 & E)]]]]];
    destruct (escapeChar_cases b)
      as [[C F]|[[C F]|[[C F]|[[C F]|[[C F]|(C1 & C2 & C3 & C4 & C5 & F)]]]]];
    rewrite E, F in H; cbn [app] in H;
    try (injection H as H; try discriminate; try congruence;
         subst; f_equal; apply IH; assumption);
    try (injection H as H0 H; subst; f_equal; apply IH; assumption).
Qed.

Section Feedback.
Context {B : Builtins}.

Lemma join_nil (parts : list jsstring) : join [] parts = List.concat parts.
Proof.
  induction parts as [|p [|q rest] IH]; [reflexivity|simpl; rewrite app_nil_r; reflexivity|].
  change (join [] (p :: q :: rest)) with (p ++ [] ++ join [] (q :: rest)).
  rewrite IH. reflexivity.
Qed.

Lemma items_of_strings (ss : list jsstring) :
  mapM (fun x => escaped <~ escapeHtml x ;;
                 Ok (js "<li>" ++ escaped ++ js "</li>"))
       (List.map VStr ss)
  = Ok (List.map (fun s => js "<li>" ++ escapeText s ++ js "</li>") ss).
Proof.
  induction ss as [|s ss IH]; [reflexivity|].
  cbn [List.map mapM]. cbn [List.map mapM] in IH. unfold rbind at 1 2.
  cbn [escapeHtml]. unfold rbind at 1.
  fold (mapM (fun x => escaped <~ escapeHtml x ;;
                       Ok (js "<li>" ++ escaped ++ js "</li>"))).
  rewrite IH. reflexivity.
Qed.

Lemma count_escaped (s : jsstring) :
  count_occ N.eq_dec (escapeText s) 60%N = 0%nat.
Proof.
  unfold escapeText. induction s as [|c s IH]; [reflexivity|].
  cbn [List.map List.concat]. rewrite count_occ_app.
  enough (X : count_occ N.eq_dec (escapeChar c) 60%N = 0%nat)
    by (etransitivity; [apply f_equal2; [exact X|exact IH]|reflexivity]).
  destruct (escapeChar_cases c)
    as [[_ E]|[[_ E]|[[_ E]|[[_ E]|[[_ E]|(_ & H2 & _ & _ & _ & E)]]]]];
    rewrite E; try reflexivity.
  cbn [count_occ]. destruct (N.eq_dec c 60); [contradiction|reflexivity].
Qed.

Lemma count_items (ss : list jsstring) :
  count_occ N.eq_dec
    (List.concat (List.map (fun s => js "<li>" ++ escapeText s ++ js "</li>") ss))
    60%N
  = (2 * List.length ss)%nat.
Proof.
  induction ss as [|s ss IH]; [reflexivity|].
  cbn [List.map List.concat List.length].
  rewrite !count_occ_app, count_escaped.
  change (count_occ N.eq_dec (js "<li>") 60%N) with 1%nat.
  change (count_occ N.eq_dec (js "</li>") 60%N) with 1%nat.
  etransitivity; [apply f_equal2; [reflexivity|exact IH]|]. lia.
Qed.

(** X19.  The markup of a list of feedback is fixed by the number of its
    items, not by their text: for a non-empty array of strings [bullet]
    gives the list with one [<li>] element per item, and the only
    opening angle brackets in it are those of the [<ul>], of its end and
    of each [<li>] and its end. *)
Theorem bullet_markup_is_fixed (s : jsstring) (ss : list jsstring) :
  exists html,
    bullet (VArr (List.map VStr (s :: ss))) = Ok html
    /\ count_occ N.eq_dec html 60%N = (2 * List.length (s :: ss) + 2)%nat.
Proof.
  exists (listOpen
          ++ List.concat
               (List.map (fun s => js "<li>" ++ escapeText s ++ js "</li>")
                         (s :: ss))
          ++ js "</ul>").
  split.
  - unfold bullet, Array_map.
    replace (negb (ToBoolean (VArr (List.map VStr (s :: ss))))
             || negb (ToBoolean (prop (VArr (List.map VStr (s :: ss)))
                                      (js "length"))))
      with false.
    + rewrite items_of_strings. unfold rbind. rewrite join_nil. reflexivity.
    + cbn [ToBoolean negb orb prop].
      change (str_eqb (js "length") (js "length")) with true. cbv iota.
      unfold num, ToBoolean, Qis_zero, inject_Z. cbn [Qnum List.map List.length].
      rewrite Nat2Z.inj_succ.
      destruct (Z.eqb_spec (Z.succ (Z.of_nat (List.length (List.map VStr ss)))) 0);
        [lia|reflexivity].
  - rewrite !count_occ_app, count_items.
    change (count_occ N.eq_dec listOpen 60%N) with 1%nat.
    change (count_occ N.eq_dec (js "</ul>") 60%N) with 1%nat. lia.
Qed.

Lemma mapM_ok_iff {A C} (f : A -> result C) (l : list A) :
  (exists out, mapM f l = Ok out) <-> Forall (fun x => exists y, f x = Ok y) l.
Proof.
  induction l as [|x l IH].
  - split; [constructor|]. intros _. exists []. reflexivity.
  - cbn [mapM]. fold (mapM f). unfold rbind at 1. split.
    + intros [out H]. destruct (f x) as [y|e] eqn:Hx; [|discriminate].
      unfold rbind in H. destruct (mapM f l) as [ys|e] eqn:Hl; [|discriminate].
      constructor; [exists y; exact Hx|]. apply IH. exists ys. reflexivity.
    + intro H. inversion H as [|? ? [y Hy] Hl]; subst.
      apply IH in Hl. destruct Hl as [ys Hys].
      rewrite Hy. unfold rbind. rewrite Hys. exists (y :: ys). reflexivity.
Qed.

(** X20.  [bullet] shows an array exactly when all its items are
    strings: an item of any other kind (a number, [null], an object) has
    no [replace], and the rendering throws. *)
Theorem bullet_needs_strings (items : list value) :
  (exists html, bullet (VArr items) = Ok html)
  <-> Forall (fun x => exists s, x = VStr s) items.
Proof.
  destruct items as [|x items].
  - split; [constructor|]. intros _. exists placeholder. reflexivity.
  - unfold bullet, Array_map.
    replace (negb (ToBoolean (VArr (x :: items)))
             || negb (ToBoolean (prop (VArr (x :: items)) (js "length"))))
      with false.
    + set (f := fun x => escaped <~ escapeHtml x ;;
                         Ok (js "<li>" ++ escaped ++ js "</li>")).
      assert (Hf : forall v, (exists y, f v = Ok y) <-> exists s, v = VStr s).
      { intro v. unfold f, rbind. destruct v; cbn [escapeHtml];
          split; intros [y H]; try discriminate; eauto. }
      split.
      * intros [html H]. unfold rbind in H.
        destruct (mapM f (x :: items)) as [out|e] eqn:Hm; [|discriminate].
        assert (Ho : exists out, mapM f (x :: items) = Ok out) by eauto.
        apply mapM_ok_iff in Ho. eapply Forall_impl; [|exact Ho].
        intros v Hv. apply Hf, Hv.
      * intro H.
        assert (Ho : Forall (fun v => exists y, f v = Ok y) (x :: items)).
        { eapply Forall_impl; [|exact H]. intros v Hv. apply Hf, Hv. }
        apply mapM_ok_iff in Ho. destruct Ho as [out Ho].
        rewrite Ho. unfold rbind. eauto.
    + cbn [ToBoolean negb orb prop].
      change (str_eqb (js "length") (js "length")) with true. cbv iota.
      unfold num, ToBoolean, Qis_zero, inject_Z. cbn [Qnum List.length].
      rewrite Nat2Z.inj_succ.
      destruct (Z.eqb_spec (Z.succ (Z.of_nat (List.length items))) 0);
        [lia|reflexivity].
Qed.

End Feedback.
End RenderFacts.

Module RenderWitnesses.
Import JS Client.

Lemma escaped_text_witness : js "a < b & c" = js "a < b & c".
Proof.
  apply (RenderFacts.escaped_text_determines_text (js "a < b & c") (js "a < b & c")).
  reflexivity.
Defined.

End RenderWitnesses.

(* ================================================================== *)
(** ** The client: what the extractors read *)
(* ================================================================== *)

Module ExtractFacts.
Import JS App.

Lemma firstn_min_length {A} (n : nat) (l : list A) :
  firstn (Nat.min (List.length l) n) l = firstn n l.
Proof.
  destruct (Nat.le_ge_cases (List.length l) n) as [H|H].
  - rewrite Nat.min_l by exact H. rewrite !firstn_all2; [reflexivity|exact H|lia].
  - rewrite Nat.min_r by exact H. reflexivity.
Qed.

(** X21.  [extractFromPDF] reads the text of the first twenty pages only
    and renders at most the first eight: the outcome on a document is the
    outcome on its first twenty pages, there are never more than eight
    page images, and there are page images only when the trimmed text is
    shorter than 500. *)
Theorem pdf_reads_twenty_pages_renders_eight (pdf : Pdf) :
  extractFromPDF pdf = extractFromPDF (firstn 20 pdf)
  /\ (List.length (pagesAsImages (extractFromPDF pdf)) <= 8)%nat
  /\ (pagesAsImages (extractFromPDF pdf) <> [] ->
      str_length (trim (text (extractFromPDF pdf))) < 500).
Proof.
  unfold extractFromPDF, numPages. cbn [text pagesAsImages].
  rewrite !firstn_min_length, !firstn_firstn.
  change (Nat.min 20 20) with 20%nat. change (Nat.min 8 20) with 8%nat.
  split; [reflexivity|]. split.
  - destruct (isEmpty (pagesText 1 (firstn 20 pdf))
              || (str_length (trim (pagesText 1 (firstn 20 pdf))) <? 500)).
    + rewrite length_map. apply firstn_le_length.
    + simpl. lia.
  - destruct (isEmpty (pagesText 1 (firstn 20 pdf))) eqn:He.
    + intros _. destruct (pagesText 1 (firstn 20 pdf)); [|discriminate].
      reflexivity.
    + cbn [orb].
      destruct (Z.ltb_spec (str_length (trim (pagesText 1 (firstn 20 pdf)))) 500)
        as [H|H]; [intros _; exact H|]. intro X. contradiction X. reflexivity.
Qed.

(** X22.  The number in the name of a slide is read back: the path of
    slide [n] is a slide path, the digits the pattern captures are the
    decimal digits of [n] (the label of the slide in the text), and the
    key of the sort is [n] rounded to binary64, which is [n] itself for
    [n] below [2^53]. *)
Theorem slide_number_round_trip (n : N) :
  isSlidePath (js "ppt/slides/slide" ++ decimal n ++ js ".xml") = true
  /\ matchSlide (js "ppt/slides/slide" ++ decimal n ++ js ".xml")
     = Some (decimal n)
  /\ slideNumber (js "ppt/slides/slide" ++ decimal n ++ js ".xml")
     = binary64 (inject_Z (Z.of_N n))
  /\ ((n < 2 ^ 53)%N ->
      slideNumber (js "ppt/slides/slide" ++ decimal n ++ js ".xml")
      = num (Z.of_N n)).
Proof.
  split; [|split; [|split]].
  - unfold isSlidePath. rewrite FileFacts.startsWith_prefix.
    rewrite app_assoc, FileFacts.endsWith_suffix. reflexivity.
  - exact (SlideFacts.matchSlide_slidePath n).
  - unfold slideNumber, digitsToNumber.
    rewrite (SlideFacts.matchSlide_slidePath n : matchSlide (js "ppt/slides/slide" ++ decimal n ++ js ".xml") = _).
    rewrite SlideFacts.digitsToZ_decimal. reflexivity.
  - exact (SlideFacts.slideNumber_slidePath n).
Qed.

Lemma untilClose_run (r rest : jsstring) :
  existsb (N.eqb 60) r = false ->
  untilClose (r ++ js "</a:t>" ++ rest) = Some (r, rest).
Proof.
  induction r as [|c r IH]; intro H.
  - destruct rest; reflexivity.
  - cbn [existsb] in H. apply orb_false_iff in H. destruct H as [Hc Hr].
    cbn [app untilClose].
    replace (startsWith (c :: r ++ js "</a:t>" ++ rest) (js "</a:t>")) with false.
    + rewrite (IH Hr). reflexivity.
    + change (js "</a:t>") with (60 :: js "/a:t>")%N. cbn [startsWith].
      rewrite Hc. reflexivity.
Qed.

Lemma textRuns_runs (runs : list jsstring) :
  Forall (fun r => existsb (N.eqb 60) r = false) runs ->
  forall fuel,
    (List.length
       (List.concat (List.map (fun r => js "<a:t>" ++ r ++ js "</a:t>") runs))
     <= fuel)%nat ->
    textRuns fuel
      (List.concat (List.map (fun r => js "<a:t>" ++ r ++ js "</a:t>") runs))
    = runs.
Proof.
  induction 1 as [|r runs Hr Hrs IH]; intros fuel Hf.
  - destruct fuel; reflexivity.
  - cbn [List.map List.concat] in *.
    set (rest := List.concat
                   (List.map (fun r => js "<a:t>" ++ r ++ js "</a:t>") runs)) in *.
    rewrite <- !app_assoc in *.
    change (js "<a:t>" ++ r ++ js "</a:t>" ++ rest)
      with (60 :: 97 :: 58 :: 116 :: 62 :: r ++ js "</a:t>" ++ rest)%N in *.
    destruct fuel as [|fuel]; [simpl in Hf; lia|].
    cbn [textRuns].
    change (startsWith (60 :: 97 :: 58 :: 116 :: 62 :: r ++ js "</a:t>" ++ rest)%N
                       (js "<a:t>"))
      with (startsWith (r ++ js "</a:t>" ++ rest) []).
    replace (startsWith (r ++ js "</a:t>" ++ rest) []) with true
      by (destruct (r ++ js "</a:t>" ++ rest); reflexivity).
    cbn [skipn].
    set (u := untilClose _).
    assert (U : u = Some (r, rest)) by (apply untilClose_run; exact Hr).
    rewrite U. f_equal. apply IH.
    cbn [List.length] in Hf. rewrite !length_app in Hf. lia.
Qed.

(** X23.  The text runs of a slide are read back exactly: for runs that
    hold no opening angle bracket, written one after the other between
    [<a:t>] and [</a:t>], the extractor finds these runs, in order. *)
Theorem text_runs_round_trip (runs : list jsstring) :
  Forall (fun r => existsb (N.eqb 60) r = false) runs ->
  textRuns
    (List.length
       (List.concat (List.map (fun r => js "<a:t>" ++ r ++ js "</a:t>") runs)))
    (List.concat (List.map (fun r => js "<a:t>" ++ r ++ js "</a:t>") runs))
  = runs.
Proof.
  intro H. apply textRuns_runs; [exact H|reflexivity].
Qed.

End ExtractFacts.

Module ExtractWitnesses.
Import JS App.

Lemma slide_number_witness :
  slideNumber (js "ppt/slides/slide" ++ decimal 12 ++ js ".xml") = num 12.
Proof.
  apply (ExtractFacts.slide_number_round_trip 12). reflexivity.
Defined.

Lemma text_runs_witness :
  textRuns
    (List.length
       (List.concat (List.map (fun r => js "<a:t>" ++ r ++ js "</a:t>")
                              [js "Causes of"; js "the 1857 revolt"])))
    (List.concat (List.map (fun r => js "<a:t>" ++ r ++ js "</a:t>")
                           [js "Causes of"; js "the 1857 revolt"]))
  = [js "Causes of"; js "the 1857 revolt"].
Proof.
  apply (ExtractFacts.text_runs_round_trip [js "Causes of"; js "the 1857 revolt"]).
  repeat constructor.
Defined.

End ExtractWitnesses.
